(** * Order placement, stock consistency and cache invalidation

    A shallow embedding of the order workflow of the e-commerce API
    (api/models.py, api/serializers.py, api/views.py, api/consumers.py,
    api/cache_utils.py) and the properties of its natural-language
    specification.

    Conventions of the embedding.
    - Python integers are [Z].  A [DecimalField] with two decimal places is
      the number of hundredths, as a [Z]: products and sums of such decimals
      are exact in Python, as they are here.  The widths the database
      gives to a column (ten digits of a decimal, the range of a
      [PositiveIntegerField]) are not modelled.
    - A database table is the list of its rows, in the order of their
      creation, with the next value of its key sequence.  [get(id=key)] is
      the first row with that key.
    - A foreign key is the primary key of the row it refers to; following it
      is a lookup, which raises [DoesNotExist] when the row is absent.
    - The cache is a finite map from keys to cached values.
    - A view runs in a state-and-exception monad over the database and the
      channel layer.  No view modelled here opens a transaction, as none does
      in the source: what a view wrote before an exception stays written. *)

From stdpp Require Import gmap strings list fin_maps pretty sorting.

Open Scope Z_scope.

(** ** Rows (api/models.py) *)

Module Product.
Record t := mk
  { id : Z; name : string; price : Z; stock : Z; is_active : bool }.

Definition with_stock (s : Z) (self : t) : t :=
  {| id := id self; name := name self; price := price self;
     stock := s; is_active := is_active self |}.

(** [in_stock] property: [self.stock > 0]. *)
Definition in_stock (self : t) : bool := bool_decide (0 < stock self).
End Product.

Module Cart.
Record t := mk { id : Z; user : Z }.
End Cart.

Module CartItem.
Record t := mk { id : Z; cart : Z; product : Z; quantity : Z }.

Definition with_quantity (q : Z) (self : t) : t :=
  {| id := id self; cart := cart self; product := product self;
     quantity := q |}.
End CartItem.

Module Order.
Record t := mk
  { id : Z; user : Z; status : string; total_price : Z;
    shipping_address : string }.

(** The keys of [STATUS_CHOICES]. *)
Definition STATUS_CHOICES : list string :=
  ["pending"; "shipped"; "delivered"; "cancelled"].

Definition with_status (s : string) (self : t) : t :=
  {| id := id self; user := user self; status := s;
     total_price := total_price self;
     shipping_address := shipping_address self |}.
End Order.

Module OrderItem.
Record t := mk
  { id : Z; order : Z; product : Z; quantity : Z; price : Z }.
End OrderItem.

(** The authenticated user of a request: what the views read of it. *)
Module User.
Record t := mk { id : Z; username : string }.
End User.

(** ** The database *)

Record Table (A : Type) := mkTable { rows : list A; next_id : Z }.
Arguments mkTable {A} _ _.
Arguments rows {A} _.
Arguments next_id {A} _.

(** [Model.objects.create(...)]: the row gets the next key of the sequence
    and is appended. *)
Definition table_create {A} (mk : Z → A) (tb : Table A) : Table A * A :=
  let row := mk (next_id tb) in
  ({| rows := rows tb ++ [row]; next_id := next_id tb + 1 |}, row).

(** [Model.objects.get(id=key)]. *)
Definition table_get {A} (key : A → Z) (k : Z) (tb : Table A) : option A :=
  find (λ r, bool_decide (key r = k)) (rows tb).

(** [instance.save()] of a row that has a key: UPDATE ... WHERE id = key. *)
Definition table_update {A} (key : A → Z) (row : A) (tb : Table A) : Table A :=
  {| rows := (λ r, if bool_decide (key r = key row) then row else r) <$> rows tb;
     next_id := next_id tb |}.

(** [queryset.filter(...).delete()]. *)
Definition table_delete {A} (doomed : A → bool) (tb : Table A) : Table A :=
  {| rows := filter (λ r, doomed r = false) (rows tb); next_id := next_id tb |}.

Record DB := mkDB
  { products : Table Product.t;
    carts : Table Cart.t;
    cart_items : Table CartItem.t;
    orders : Table Order.t;
    order_items : Table OrderItem.t }.

Definition with_products (tb : Table Product.t) (db : DB) : DB :=
  {| products := tb; carts := carts db;
     cart_items := cart_items db; orders := orders db;
     order_items := order_items db |}.
Definition with_carts (tb : Table Cart.t) (db : DB) : DB :=
  {| products := products db; carts := tb; cart_items := cart_items db;
     orders := orders db; order_items := order_items db |}.
Definition with_cart_items (tb : Table CartItem.t) (db : DB) : DB :=
  {| products := products db; carts := carts db; cart_items := tb;
     orders := orders db; order_items := order_items db |}.
Definition with_orders (tb : Table Order.t) (db : DB) : DB :=
  {| products := products db; carts := carts db;
     cart_items := cart_items db; orders := tb;
     order_items := order_items db |}.
Definition with_order_items (tb : Table OrderItem.t) (db : DB) : DB :=
  {| products := products db; carts := carts db;
     cart_items := cart_items db; orders := orders db; order_items := tb |}.

(** ** Notification events and the channel layer (api/consumers.py) *)

(** The messages handed to [channel_layer.group_send], by their ['type']. *)
Inductive Event :=
  | order_update (order_id : Z) (old_status new_status message timestamp : string)
  | order_created (order_id : Z) (message timestamp : string)
  | new_order (order_id user_id : Z) (user_name : string) (total_price : Z)
      (message timestamp : string)
  | order_status_changed (order_id user_id : Z)
      (old_status new_status message timestamp : string).

(** What becomes of one [asyncio.create_task(coroutine)]:
    - [TaskRaises]: the call itself raises (there is no running event loop
      in the thread of a synchronous view, or the import before it failed);
    - [TaskLost]: the task is scheduled and its [group_send] fails later,
      inside the task, where no caller sees the exception;
    - [TaskSent]: the task is scheduled and [group_send] delivers. *)
Inductive TaskOutcome := TaskRaises | TaskLost | TaskSent.

(** The surroundings of a request that the code cannot decide: the fate of
    its n-th task and the n-th reading of the clock. *)
Record Env := mkEnv { task_outcome : nat → TaskOutcome; now : nat → string }.

(** The state a request runs in: the database, the messages delivered to
    channel groups (oldest first), the number of tasks and clock readings
    made so far, and the surroundings, which no code changes. *)
Record World := mkWorld
  { w_db : DB; w_sent : list (string * Event); w_tasks : nat; w_ticks : nat;
    w_env : Env }.

Definition with_db (f : DB → DB) (w : World) : World :=
  {| w_db := f (w_db w); w_sent := w_sent w; w_tasks := w_tasks w;
     w_ticks := w_ticks w; w_env := w_env w |}.

(** ** The monad of views: state and exceptions *)

Inductive exn :=
  | DoesNotExist (model : string)
  | RuntimeError (msg : string).

Inductive result (A : Type) := Ok (a : A) | Raise (e : exn).
Arguments Ok {A} _.
Arguments Raise {A} _.

Definition M (A : Type) : Type := World → World * result A.

Definition ret {A} (a : A) : M A := λ w, (w, Ok a).
Definition raise {A} (e : exn) : M A := λ w, (w, Raise e).
Definition bind {A B} (m : M A) (k : A → M B) : M B :=
  λ w, match m w with
       | (w', Ok a) => k a w'
       | (w', Raise e) => (w', Raise e)
       end.
(** [try: m except Exception: h]: the writes of [m] before the exception
    stay. *)
Definition try_except {A} (m : M A) (h : exn → M A) : M A :=
  λ w, match m w with
       | (w', Ok a) => (w', Ok a)
       | (w', Raise e) => h e w'
       end.

Notation "'let*' x ':=' m 'in' k" := (bind m (λ x, k))
  (at level 10, x pattern, m at level 100, k at level 200, only parsing).
Notation "m >> k" := (bind m (λ _, k))
  (at level 100, k at level 200, right associativity, only parsing).

Definition get_db : M DB := λ w, (w, Ok (w_db w)).
(** A total database operation, run in the monad. *)
Definition lift_db {A} (f : DB → DB * A) : M A :=
  λ w, let '(db, a) := f (w_db w) in (with_db (λ _, db) w, Ok a).
(** A lookup that raises [DoesNotExist] on a miss. *)
Definition get_or_raise {A} (model : string) (o : option A) : M A :=
  match o with Some a => ret a | None => raise (DoesNotExist model) end.

(** [for x in xs: body x]. *)
Fixpoint for_each {A} (xs : list A) (body : A → M unit) : M unit :=
  match xs with
  | [] => ret tt
  | x :: xs' => body x >> for_each xs' body
  end.

(** [datetime.now().isoformat()]. *)
Definition datetime_now_isoformat : M string :=
  λ w, ({| w_db := w_db w; w_sent := w_sent w; w_tasks := w_tasks w;
           w_ticks := S (w_ticks w); w_env := w_env w |},
        Ok (now (w_env w) (w_ticks w))).

(** [asyncio.create_task(coro)] where [coro] awaits
    [channel_layer.group_send(group, event)]. *)
Definition create_task (group : string) (event : Event) : M unit :=
  λ w,
    let w' sent := {| w_db := w_db w; w_sent := sent;
                      w_tasks := S (w_tasks w); w_ticks := w_ticks w;
                      w_env := w_env w |} in
    match task_outcome (w_env w) (w_tasks w) with
    | TaskRaises => (w' (w_sent w), Raise (RuntimeError "no running event loop"))
    | TaskLost => (w' (w_sent w), Ok tt)
    | TaskSent => (w' (w_sent w ++ [(group, event)]), Ok tt)
    end.

Module consumers.
(** [f'user_{user_id}'] *)
Definition user_group (user_id : Z) : string := "user_" +:+ pretty user_id.
Definition admin_group : string := "admin_orders".

(** [OrderConsumer.send_order_update(user_id, data)], scheduled as a
    task.  [timestamp] is [data.get('timestamp')], the empty string when absent. *)
Definition OrderConsumer_send_order_update (user_id order_id : Z)
    (old_status new_status message : string) (timestamp : option string) : M unit :=
  create_task (user_group user_id)
    (order_update order_id old_status new_status message (default EmptyString timestamp)).

(** [OrderConsumer.send_order_created(user_id, data)]. *)
Definition OrderConsumer_send_order_created (user_id order_id : Z)
    (message : string) (timestamp : option string) : M unit :=
  create_task (user_group user_id)
    (order_created order_id message (default EmptyString timestamp)).

(** [AdminOrderConsumer.notify_new_order(order_data)]. *)
Definition AdminOrderConsumer_notify_new_order (order_id user_id : Z)
    (user_name : string) (total_price : Z) (message : string)
    (timestamp : option string) : M unit :=
  create_task admin_group
    (new_order order_id user_id user_name total_price message
       (default EmptyString timestamp)).

(** [AdminOrderConsumer.notify_order_status_change(order_data)]. *)
Definition AdminOrderConsumer_notify_order_status_change (order_id user_id : Z)
    (old_status new_status message : string) (timestamp : option string) : M unit :=
  create_task admin_group
    (order_status_changed order_id user_id old_status new_status message
       (default EmptyString timestamp)).
End consumers.

(** ** Model methods (api/models.py) *)

Module models.
(** [Product.decrease_stock(self, quantity)]: the instance is changed in
    place and saved; the result is the instance afterwards and the
    boolean returned. *)
Definition Product_decrease_stock (self : Product.t) (quantity : Z) (db : DB)
    : DB * (Product.t * bool) :=
  if bool_decide (Product.stock self >= quantity) then
    let self' := Product.with_stock (Product.stock self - quantity) self in
    (with_products (table_update Product.id self' (products db)) db,
     (self', true))
  else (db, (self, false)).

(** [Product.objects.get(id=key)]. *)
Definition Product_objects_get (key : Z) (db : DB) : option Product.t :=
  table_get Product.id key (products db).

(** [cart.items.all()]: the rows of the reverse foreign key. *)
Definition Cart_items (self : Cart.t) (db : DB) : list CartItem.t :=
  filter (λ item, CartItem.cart item = Cart.id self) (rows (cart_items db)).

(** [item.product]: the foreign key is followed when it is read. *)
Definition CartItem_product (self : CartItem.t) : M Product.t :=
  let* db := get_db in
  get_or_raise "Product" (Product_objects_get (CartItem.product self) db).

(** [CartItem.total_price]: [self.product.price * self.quantity]. *)
Definition CartItem_total_price (self : CartItem.t) : M Z :=
  let* product := CartItem_product self in
  ret (Product.price product * CartItem.quantity self).

(** [sum(f(x) for x in xs)], from the accumulator [acc]. *)
Fixpoint sum_of {A} (f : A → M Z) (xs : list A) (acc : Z) : M Z :=
  match xs with
  | [] => ret acc
  | x :: xs' => let* v := f x in sum_of f xs' (acc + v)
  end.

(** [Cart.total_items] and [Cart.total_price]. *)
Definition Cart_total_items (self : Cart.t) : M Z :=
  let* db := get_db in
  sum_of (λ item, ret (CartItem.quantity item)) (Cart_items self db) 0.
Definition Cart_total_price (self : Cart.t) : M Z :=
  let* db := get_db in
  sum_of CartItem_total_price (Cart_items self db) 0.

(** [Cart.clear]: [self.items.all().delete()]. *)
Definition Cart_clear (self : Cart.t) (db : DB) : DB :=
  with_cart_items
    (table_delete (λ item, bool_decide (CartItem.cart item = Cart.id self))
       (cart_items db)) db.

(** The body of [CartItem.save] before [super().save()]: the quantity is
    cut down to the stock of [self.product], the product instance the
    item holds. *)
Definition CartItem_clamp (self : CartItem.t) (product : Product.t) : CartItem.t :=
  if bool_decide (CartItem.quantity self > Product.stock product)
  then CartItem.with_quantity (Product.stock product) self
  else self.

(** [CartItem.save] of an instance read from the database: an UPDATE of
    its row. *)
Definition CartItem_save (self : CartItem.t) (product : Product.t) (db : DB)
    : DB * CartItem.t :=
  let self' := CartItem_clamp self product in
  (with_cart_items (table_update CartItem.id self' (cart_items db)) db, self').

(** [CartItem.save] of a new instance, as [objects.create] and
    [get_or_create] call it: an INSERT that assigns the key. *)
Definition CartItem_create (cart : Cart.t) (product : Product.t) (quantity : Z)
    (db : DB) : DB * CartItem.t :=
  let new key :=
    CartItem_clamp (CartItem.mk key (Cart.id cart) (Product.id product) quantity)
      product in
  let '(tb, row) := table_create new (cart_items db) in
  (with_cart_items tb db, row).

(** [Order.update_status(self, new_status)]: the status is saved, then
    the customer is notified inside [try ... except Exception: pass].
    The result is the instance afterwards. *)
Definition Order_update_status (self : Order.t) (new_status : string) : M Order.t :=
  let old_status := Order.status self in
  let self' := Order.with_status new_status self in
  lift_db (λ db, (with_orders (table_update Order.id self' (orders db)) db, tt)) >>
  try_except
    (consumers.OrderConsumer_send_order_update (Order.user self') (Order.id self')
       old_status new_status
       ("Your order #" +:+ pretty (Order.id self') +:+
        " status has been updated to " +:+ new_status)
       None)
    (λ _, ret tt) >>
  ret self'.




(** [product.delete()]: the foreign keys of [CartItem] and [OrderItem] to
    [Product] are declared [on_delete=models.CASCADE], so the rows that
    refer to the product go with it. *)
Definition Product_delete (self : Product.t) (db : DB) : DB :=
  with_products
    (table_delete (λ p, bool_decide (Product.id p = Product.id self)) (products db))
    (with_cart_items
       (table_delete
          (λ item, bool_decide (CartItem.product item = Product.id self))
          (cart_items db))
       (with_order_items
          (table_delete
             (λ item, bool_decide (OrderItem.product item = Product.id self))
             (order_items db))
          db)).
End models.

(** The call site of [decrease_stock] in the order view,
    [item.product.decrease_stock(item.quantity)], on its own: the row is
    fetched by its key and the method is called on it.  A missing row
    changes nothing. *)
Definition fetch_and_decrease_stock (product_id quantity : Z) (db : DB) : DB * bool :=
  match models.Product_objects_get product_id db with
  | Some product =>
      let '(db', (_, ok)) := models.Product_decrease_stock product quantity db in
      (db', ok)
  | None => (db, false)
  end.

(** Any sequence of such calls, each with its product and quantity. *)
Fixpoint decrease_stock_sequence (calls : list (Z * Z)) (db : DB) : DB :=
  match calls with
  | [] => db
  | (product_id, quantity) :: calls' =>
      decrease_stock_sequence calls' (fetch_and_decrease_stock product_id quantity db).1
  end.

(** [PositiveIntegerField]: every stored stock is at least 0. *)
Definition stock_nonneg (db : DB) : Prop :=
  ∀ product, product ∈ rows (products db) → 0 ≤ Product.stock product.

(** ** Responses *)

(** The payload of a response.  Of the cart and order snapshots
    ([CartSerializer(cart).data], [OrderSerializer(order).data]) the row
    and its item rows are kept; the read-only fields computed from other
    rows (names, totals) are left out. *)
Inductive Body :=
  | ErrorBody (error : string)
  | SerializerErrors (errors : list (string * string))
  | CartBody (message : string) (cart : Cart.t) (items : list CartItem.t)
  | OrderBody (message : string) (order : Order.t) (items : list OrderItem.t).

Record Response := mkResponse { status_code : Z; body : Body }.

Definition HTTP_200_OK : Z := 200.
Definition HTTP_201_CREATED : Z := 201.
Definition HTTP_400_BAD_REQUEST : Z := 400.
Definition HTTP_404_NOT_FOUND : Z := 404.

(** ** Serializers (api/serializers.py) *)

Module serializers.
(** [str.strip()] on ASCII text. *)
Definition is_whitespace (c : Ascii.ascii) : bool :=
  Ascii.is_space c
  || bool_decide (28 ≤ Z.of_nat (Ascii.nat_of_ascii c) ≤ 31).
Fixpoint lstrip (s : string) : string :=
  match s with
  | String c s' => if is_whitespace c then lstrip s' else s
  | EmptyString => EmptyString
  end.
Definition strip (s : string) : string :=
  String.rev (lstrip (String.rev (lstrip s))).

(** *** AddToCartSerializer *)

(** The request data, parsed: an absent field is [None]. *)
Record AddToCartData := mkAddToCartData
  { product_id : option Z; quantity : option Z }.

(** [validate_product_id]: [None] when the value passes. *)
Definition AddToCart_validate_product_id (value : Z) (db : DB) : option string :=
  match models.Product_objects_get value db with
  | Some product =>
      if Product.is_active product then
        if Product.in_stock product then None
        else Some "Product is out of stock"
      else Some "Product not found"
  | None => Some "Product not found"
  end.

(** [validate_quantity]: the product is looked up by the raw
    [product_id] of the request, whatever its active flag. *)
Definition AddToCart_validate_quantity (initial_product_id : option Z) (value : Z)
    (db : DB) : option string :=
  match initial_product_id with
  | Some product_id =>
      if bool_decide (product_id ≠ 0) then
        match models.Product_objects_get product_id db with
        | Some product =>
            if bool_decide (value > Product.stock product)
            then Some ("Only " +:+ pretty (Product.stock product) +:+
                       " items available in stock")
            else None
        | None => None
        end
      else None
  | None => None
  end.

(** The two fields, validated in the order of their declaration. *)
Definition AddToCart_field_product_id (data : AddToCartData) (db : DB)
    : string + Z :=
  match product_id data with
  | None => inl "This field is required."
  | Some value =>
      match AddToCart_validate_product_id value db with
      | Some msg => inl msg
      | None => inr value
      end
  end.

Definition AddToCart_field_quantity (data : AddToCartData) (db : DB)
    : string + Z :=
  let validate value :=
    match AddToCart_validate_quantity (product_id data) value db with
    | Some msg => inl msg
    | None => inr value
    end in
  match quantity data with
  | None => validate 1
  | Some value =>
      if bool_decide (value < 1)
      then inl "Ensure this value is greater than or equal to 1."
      else validate value
  end.

(** [serializer.is_valid()]: the errors by field, or the validated
    [(product_id, quantity)]. *)
Definition AddToCart_is_valid (data : AddToCartData) (db : DB)
    : list (string * string) + (Z * Z) :=
  match AddToCart_field_product_id data db, AddToCart_field_quantity data db with
  | inr p, inr q => inr (p, q)
  | inl e, inr _ => inl [("product_id", e)]
  | inr _, inl e => inl [("quantity", e)]
  | inl e1, inl e2 => inl [("product_id", e1); ("quantity", e2)]
  end.

(** *** UpdateCartItemSerializer

    [validate_quantity] reads [cart_item.product.stock]: the product is
    fetched and stays on the item instance.  The result carries it. *)
Definition UpdateCartItem_is_valid (quantity : option Z) (cart_item : CartItem.t)
    : M (list (string * string) + (Z * Product.t)) :=
  match quantity with
  | None => ret (inl [("quantity", "This field is required.")])
  | Some value =>
      if bool_decide (value < 1)
      then ret (inl [("quantity",
                      "Ensure this value is greater than or equal to 1.")])
      else
        let* product := models.CartItem_product cart_item in
        if bool_decide (value > Product.stock product)
        then ret (inl [("quantity",
                        "Only " +:+ pretty (Product.stock product) +:+
                        " items available in stock")])
        else ret (inr (value, product))
  end.

(** *** CreateOrderSerializer: [CharField(max_length=500)], which trims
    the value and refuses a blank one, then [validate_shipping_address]. *)
Definition CreateOrder_is_valid (shipping_address : option string)
    : list (string * string) + string :=
  match shipping_address with
  | None => inl [("shipping_address", "This field is required.")]
  | Some data =>
      let value := strip data in
      if bool_decide (value = EmptyString)
      then inl [("shipping_address", "This field may not be blank.")]
      else if bool_decide (500 < Z.of_nat (String.length value))
      then inl [("shipping_address",
                 "Ensure this field has no more than 500 characters.")]
      else if bool_decide (strip value = EmptyString)
      then inl [("shipping_address", "Shipping address cannot be empty")]
      else inr value
  end.

(** *** UpdateOrderStatusSerializer *)

(** [validate_status], with the order of the context. *)
Definition UpdateOrderStatus_validate_status (order : Order.t) (value : string)
    : option string :=
  if bool_decide (Order.status order ∈ ["delivered"; "cancelled"])
     && negb (bool_decide (value ∈ ["delivered"; "cancelled"]))
  then Some ("Cannot change status from " +:+ Order.status order +:+
             " to " +:+ value)
  else None.

(** [ChoiceField(choices=Order.STATUS_CHOICES)], then [validate_status]. *)
Definition UpdateOrderStatus_is_valid (status : option string) (order : Order.t)
    : list (string * string) + string :=
  match status with
  | None => inl [("status", "This field is required.")]
  | Some value =>
      if bool_decide (value ∈ Order.STATUS_CHOICES) then
        match UpdateOrderStatus_validate_status order value with
        | Some msg => inl [("status", msg)]
        | None => inr value
        end
      else inl [("status",
                 String (Ascii.ascii_of_nat 34)
                   (value +:+
                    String (Ascii.ascii_of_nat 34) " is not a valid choice."))]
  end.
End serializers.

(** ** Views (api/views.py)

    Each view is modelled for a request that passed its permission class. *)

Module views.
Import models.

(** [Cart.objects.get(user=user)]: the cart of a user is unique
    ([OneToOneField]). *)
Definition Cart_objects_get (user : User.t) (db : DB) : option Cart.t :=
  find (λ c, bool_decide (Cart.user c = User.id user)) (rows (carts db)).

(** [Cart.objects.get_or_create(user=user)]. *)
Definition Cart_objects_get_or_create (user : User.t) (db : DB) : DB * Cart.t :=
  match Cart_objects_get user db with
  | Some cart => (db, cart)
  | None =>
      let '(tb, cart) := table_create (λ key, Cart.mk key (User.id user)) (carts db) in
      (with_carts tb db, cart)
  end.

(** [CartItem.objects.get(cart=cart, product=product)]. *)
Definition CartItem_objects_get (cart : Cart.t) (product : Product.t) (db : DB)
    : option CartItem.t :=
  find (λ item, bool_decide (CartItem.cart item = Cart.id cart)
                && bool_decide (CartItem.product item = Product.id product))
       (rows (cart_items db)).

(** [CartItem.objects.get_or_create(cart=cart, product=product,
    defaults={'quantity': quantity})], with its [created] flag. *)
Definition CartItem_objects_get_or_create (cart : Cart.t) (product : Product.t)
    (quantity : Z) (db : DB) : DB * (CartItem.t * bool) :=
  match CartItem_objects_get cart product db with
  | Some item => (db, (item, false))
  | None =>
      let '(db', item) := CartItem_create cart product quantity db in
      (db', (item, true))
  end.

(** [CartSerializer(cart).data]. *)
Definition cart_response (code : Z) (message : string) (cart : Cart.t) : M Response :=
  let* db := get_db in
  ret (mkResponse code (CartBody message cart (Cart_items cart db))).

(** [AddToCartView.post]. *)
Definition AddToCartView_post (user : User.t) (data : serializers.AddToCartData)
    : M Response :=
  let* db := get_db in
  match serializers.AddToCart_is_valid data db with
  | inl errors => ret (mkResponse HTTP_400_BAD_REQUEST (SerializerErrors errors))
  | inr (product_id, quantity) =>
      let* cart := lift_db (Cart_objects_get_or_create user) in
      let* db := get_db in
      match Product_objects_get product_id db with
      | Some product =>
          if negb (Product.is_active product)
          then ret (mkResponse HTTP_404_NOT_FOUND (ErrorBody "Product not found"))
          else if bool_decide (Product.stock product < quantity)
          then ret (mkResponse HTTP_400_BAD_REQUEST
                      (ErrorBody ("Only " +:+ pretty (Product.stock product) +:+
                                  " items available")))
          else
            let* got :=
              lift_db (CartItem_objects_get_or_create cart product quantity) in
            let cart_item := got.1 in
            let created := got.2 in
            (if created then ret tt
             else
               let q := CartItem.quantity cart_item + quantity in
               let q := if bool_decide (q > Product.stock product)
                        then Product.stock product else q in
               let cart_item := CartItem.with_quantity q cart_item in
               let* own_product := CartItem_product cart_item in
               lift_db (CartItem_save cart_item own_product) >> ret tt) >>
            cart_response HTTP_200_OK "Product added to cart successfully" cart
      | None => ret (mkResponse HTTP_404_NOT_FOUND (ErrorBody "Product not found"))
      end
  end.

(** [CartItem.objects.get(id=item_id, cart__user=request.user)]. *)
Definition CartItem_objects_get_own (item_id : Z) (user : User.t) (db : DB)
    : option CartItem.t :=
  find (λ item,
          bool_decide (CartItem.id item = item_id)
          && bool_decide (Exists (λ c, Cart.id c = CartItem.cart item
                                       ∧ Cart.user c = User.id user)
                                 (rows (carts db))))
       (rows (cart_items db)).

(** [item.cart]. *)
Definition CartItem_cart (self : CartItem.t) : M Cart.t :=
  let* db := get_db in
  get_or_raise "Cart" (table_get Cart.id (CartItem.cart self) (carts db)).

(** [UpdateCartItemView.patch]. *)
Definition UpdateCartItemView_patch (user : User.t) (item_id : Z)
    (quantity : option Z) : M Response :=
  let* db := get_db in
  match CartItem_objects_get_own item_id user db with
  | None => ret (mkResponse HTTP_404_NOT_FOUND (ErrorBody "Cart item not found"))
  | Some cart_item =>
      let* valid := serializers.UpdateCartItem_is_valid quantity cart_item in
      match valid with
      | inl errors => ret (mkResponse HTTP_400_BAD_REQUEST (SerializerErrors errors))
      | inr (quantity, own_product) =>
          let cart_item := CartItem.with_quantity quantity cart_item in
          let* cart_item := lift_db (CartItem_save cart_item own_product) in
          let* cart := CartItem_cart cart_item in
          cart_response HTTP_200_OK "Cart item updated successfully" cart
      end
  end.

(** [RemoveFromCartView.delete]. *)
Definition RemoveFromCartView_delete (user : User.t) (item_id : Z) : M Response :=
  let* db := get_db in
  match CartItem_objects_get_own item_id user db with
  | None => ret (mkResponse HTTP_404_NOT_FOUND (ErrorBody "Cart item not found"))
  | Some cart_item =>
      let* cart := CartItem_cart cart_item in
      lift_db (λ db,
        (with_cart_items
           (table_delete (λ item, bool_decide (CartItem.id item = CartItem.id cart_item))
              (cart_items db)) db, tt)) >>
      cart_response HTTP_200_OK "Item removed from cart successfully" cart
  end.

(** [ClearCartView.delete]. *)
Definition ClearCartView_delete (user : User.t) : M Response :=
  let* cart := lift_db (Cart_objects_get_or_create user) in
  lift_db (λ db, (Cart_clear cart db, tt)) >>
  cart_response HTTP_200_OK "Cart cleared successfully" cart.

(** [Order.objects.create(user=..., total_price=..., shipping_address=...)]:
    the status takes its default, ['pending']. *)
Definition Order_objects_create (user : User.t) (total_price : Z)
    (shipping_address : string) (db : DB) : DB * Order.t :=
  let '(tb, order) :=
    table_create
      (λ key, Order.mk key (User.id user) "pending" total_price shipping_address)
      (orders db) in
  (with_orders tb db, order).

(** [OrderItem.objects.create(order=..., product=..., quantity=..., price=...)]. *)
Definition OrderItem_objects_create (order : Order.t) (product : Product.t)
    (quantity price : Z) (db : DB) : DB * OrderItem.t :=
  let '(tb, item) :=
    table_create
      (λ key, OrderItem.mk key (Order.id order) (Product.id product) quantity price)
      (order_items db) in
  (with_order_items tb db, item).

(** [OrderSerializer(order).data]. *)
Definition order_response (code : Z) (message : string) (order : Order.t)
    : M Response :=
  let* db := get_db in
  ret (mkResponse code
         (OrderBody message order
            (filter (λ item, OrderItem.order item = Order.id order)
               (rows (order_items db))))).

(** *** CreateOrderView.post *)

(** The stock validation loop, which returns from the view at the first
    line that asks for more than the stock. *)
Fixpoint validate_stock (items : list CartItem.t) : M (option Response) :=
  match items with
  | [] => ret None
  | item :: items' =>
      let* product := CartItem_product item in
      if bool_decide (CartItem.quantity item > Product.stock product)
      then ret (Some (mkResponse HTTP_400_BAD_REQUEST
                        (ErrorBody ("Insufficient stock for " +:+
                                    Product.name product +:+ ". Available: " +:+
                                    pretty (Product.stock product)))))
      else validate_stock items'
  end.

(** The checks of the view, up to the first write: the cart is fetched,
    is not empty, and every line passes the stock validation.  The result
    is the response of a refusal, or the cart. *)
Definition CreateOrderView_checks (user : User.t) : M (Response + Cart.t) :=
  let* db := get_db in
  match Cart_objects_get user db with
  | None => ret (inl (mkResponse HTTP_400_BAD_REQUEST (ErrorBody "Cart is empty")))
  | Some cart =>
      if bool_decide (Cart_items cart db = [])
      then ret (inl (mkResponse HTTP_400_BAD_REQUEST (ErrorBody "Cart is empty")))
      else
        let* refused := validate_stock (Cart_items cart db) in
        match refused with
        | Some response => ret (inl response)
        | None => ret (inr cart)
        end
  end.

(** One turn of the loop that creates the order items and decreases the
    stock: the boolean of [decrease_stock] is dropped. *)
Definition create_order_item (order : Order.t) (item : CartItem.t) : M unit :=
  let* product := CartItem_product item in
  lift_db (OrderItem_objects_create order product (CartItem.quantity item)
             (Product.price product)) >>
  lift_db (Product_decrease_stock product (CartItem.quantity item)) >>
  ret tt.

(** The notifications of a new order, inside [try ... except Exception]. *)
Definition notify_order_created (user : User.t) (order : Order.t) : M unit :=
  try_except
    (let* t := datetime_now_isoformat in
     consumers.OrderConsumer_send_order_created (User.id user) (Order.id order)
       ("Your order #" +:+ pretty (Order.id order) +:+
        " has been created successfully!")
       (Some t) >>
     let* t := datetime_now_isoformat in
     consumers.AdminOrderConsumer_notify_new_order (Order.id order) (User.id user)
       (User.username user) (Order.total_price order)
       ("New order #" +:+ pretty (Order.id order) +:+ " created by " +:+
        User.username user)
       (Some t))
    (λ _, ret tt).

(** The rest of the view, from the creation of the order on. *)
Definition CreateOrderView_place (user : User.t) (shipping_address : string)
    (cart : Cart.t) : M Response :=
  let* total_price := Cart_total_price cart in
  let* order := lift_db (Order_objects_create user total_price shipping_address) in
  let* db := get_db in
  for_each (Cart_items cart db) (create_order_item order) >>
  lift_db (λ db, (Cart_clear cart db, tt)) >>
  notify_order_created user order >>
  order_response HTTP_201_CREATED "Order created successfully" order.

(** [CreateOrderView.post]. *)
Definition CreateOrderView_post (user : User.t) (shipping_address : option string)
    : M Response :=
  match serializers.CreateOrder_is_valid shipping_address with
  | inl errors => ret (mkResponse HTTP_400_BAD_REQUEST (SerializerErrors errors))
  | inr shipping_address =>
      let* checked := CreateOrderView_checks user in
      match checked with
      | inl response => ret response
      | inr cart => CreateOrderView_place user shipping_address cart
      end
  end.


(** *** AdminOrderStatusUpdateView.patch *)

(** [Order.objects.get(id=order_id)]. *)
Definition Order_objects_get (order_id : Z) (db : DB) : option Order.t :=
  table_get Order.id order_id (orders db).

(** The notifications of a status change, inside [try ... except]. *)
Definition notify_status_change (order : Order.t) (old_status new_status : string)
    : M unit :=
  try_except
    (let* t := datetime_now_isoformat in
     consumers.OrderConsumer_send_order_update (Order.user order) (Order.id order)
       old_status new_status
       ("Your order #" +:+ pretty (Order.id order) +:+
        " status has been updated to " +:+ new_status)
       (Some t) >>
     let* t := datetime_now_isoformat in
     consumers.AdminOrderConsumer_notify_order_status_change (Order.id order)
       (Order.user order) old_status new_status
       ("Order #" +:+ pretty (Order.id order) +:+ " status changed from " +:+
        old_status +:+ " to " +:+ new_status)
       (Some t))
    (λ _, ret tt).

Definition AdminOrderStatusUpdateView_patch (order_id : Z) (status : option string)
    : M Response :=
  let* db := get_db in
  match Order_objects_get order_id db with
  | None => ret (mkResponse HTTP_404_NOT_FOUND (ErrorBody "Order not found"))
  | Some order =>
      match serializers.UpdateOrderStatus_is_valid status order with
      | inl errors => ret (mkResponse HTTP_400_BAD_REQUEST (SerializerErrors errors))
      | inr new_status =>
          let old_status := Order.status order in
          let* order := Order_update_status order new_status in
          notify_status_change order old_status new_status >>
          order_response HTTP_200_OK
            ("Order status updated to " +:+ new_status) order
      end
  end.

(** [CartView.get_object]. *)
Definition CartView_get_object (user : User.t) : M Cart.t :=
  lift_db (Cart_objects_get_or_create user).

End views.

(** A category row (api/models.py). *)
Module Category.
Record t := mk { id : Z; name : string; description : string }.
End Category.

(** ** Cache invalidation (api/cache_utils.py)

    The cache is a finite map from keys to cached values.  An entry leaves
    it by [delete], by [delete_pattern], or by expiry, which the model does
    not follow: expiry only turns hits into misses. *)

Module cache_utils.
Definition star : Ascii.ascii := Ascii.ascii_of_nat 42.

(** Glob matching of a key against a pattern in which [*] stands for any
    run of characters, the only wildcard the patterns of this file use. *)
Fixpoint glob_match (pattern : string) : string → bool :=
  match pattern with
  | EmptyString => λ key, bool_decide (key = EmptyString)
  | String c pattern' =>
      if bool_decide (c = star) then
        fix skip (key : string) : bool :=
          glob_match pattern' key
          || match key with
             | EmptyString => false
             | String _ key' => skip key'
             end
      else
        λ key,
          match key with
          | EmptyString => false
          | String c' key' => bool_decide (c = c') && glob_match pattern' key'
          end
  end.

Section cache.
Context {V : Type}.

Definition cache_get (key : string) (cache : gmap string V) : option V :=
  cache !! key.
Definition cache_set (key : string) (value : V) (cache : gmap string V)
    : gmap string V :=
  <[key := value]> cache.
Definition cache_delete (key : string) (cache : gmap string V) : gmap string V :=
  delete key cache.
Definition cache_delete_pattern (pattern : string) (cache : gmap string V)
    : gmap string V :=
  filter (λ entry, glob_match pattern entry.1 = false) cache.

(** The truth value of [product_id] in [if product_id:]. *)
Definition truthy (product_id : option Z) : bool :=
  match product_id with
  | Some n => bool_decide (n ≠ 0)
  | None => false
  end.

(** [invalidate_product_cache(product_id=None)]. *)
Definition invalidate_product_cache (product_id : option Z)
    (cache : gmap string V) : gmap string V :=
  let cache :=
    match product_id with
    | Some n =>
        if truthy product_id then
          cache_delete ("product_" +:+ pretty n)
            (cache_delete ("product_detail_" +:+ pretty n) cache)
        else cache
    | None => cache
    end in
  let cache := cache_delete_pattern "*products_list*" cache in
  let cache := cache_delete_pattern "*product_list*" cache in
  cache_delete_pattern "*public_products*" cache.

(** [get_cached_product(product_id)]. *)
Definition get_cached_product (product_id : Z) (cache : gmap string V)
    : option V :=
  cache_get ("product_detail_" +:+ pretty product_id) cache.

(** [invalidate_category_cache(category_id=None)]. *)
Definition invalidate_category_cache (category_id : option Z)
    (cache : gmap string V) : gmap string V :=
  let cache :=
    match category_id with
    | Some n =>
        if truthy category_id then
          cache_delete ("category_" +:+ pretty n)
            (cache_delete ("category_detail_" +:+ pretty n) cache)
        else cache
    | None => cache
    end in
  let cache := cache_delete_pattern "*categories_list*" cache in
  let cache := cache_delete_pattern "*category_list*" cache in
  cache_delete_pattern "*public_categories*" cache.

(** [invalidate_order_cache(order_id=None, user_id=None)]. *)
Definition invalidate_order_cache (order_id user_id : option Z)
    (cache : gmap string V) : gmap string V :=
  let cache :=
    match order_id with
    | Some n =>
        if truthy order_id then
          cache_delete ("order_" +:+ pretty n)
            (cache_delete ("order_detail_" +:+ pretty n) cache)
        else cache
    | None => cache
    end in
  let cache :=
    match user_id with
    | Some u =>
        if truthy user_id then
          cache_delete_pattern ("*user_" +:+ pretty u +:+ "_orders*")
            (cache_delete ("user_orders_" +:+ pretty u) cache)
        else cache
    | None => cache
    end in
  let cache := cache_delete_pattern "*orders_list*" cache in
  cache_delete_pattern "*order_list*" cache.

(** [get_cached_category(category_id)]. *)
Definition get_cached_category (category_id : Z) (cache : gmap string V)
    : option V :=
  cache_get ("category_detail_" +:+ pretty category_id) cache.

(** [clear_all_cache()]. *)
Definition clear_all_cache (cache : gmap string V) : gmap string V := ∅.
End cache.

(** [set_cached_product(product, timeout=3600)]. *)
Definition set_cached_product (product : Product.t)
    (cache : gmap string Product.t) : gmap string Product.t :=
  cache_set ("product_detail_" +:+ pretty (Product.id product)) product cache.

(** [set_cached_category(category, timeout=3600)]. *)
Definition set_cached_category (category : Category.t)
    (cache : gmap string Category.t) : gmap string Category.t :=
  cache_set ("category_detail_" +:+ pretty (Category.id category)) category cache.

(** [sep.join(parts)]. *)
Fixpoint join (sep : string) (parts : list string) : string :=
  match parts with
  | [] => EmptyString
  | [part] => part
  | part :: parts' => part +:+ sep +:+ join sep parts'
  end.

Section hashed.
(** [hashlib.md5(text.encode()).hexdigest()], of the standard library. *)
Context (md5_hexdigest : string → string).

(** [get_cache_key(prefix, *args, **kwargs)].  The positional arguments
    come as [str(arg)] made them, the keyword arguments as the pairs of
    name and formatted value; [sorted(kwargs.items())] orders them by
    name, the names of keyword arguments being different. *)
Definition get_cache_key (prefix : string) (args : list string)
    (kwargs : list (string * string)) : string :=
  let key_parts :=
    prefix :: args ++
    ((λ item, item.1 +:+ ":" +:+ item.2)
       <$> merge_sort (λ a b, String.le a.1 b.1) kwargs) in
  md5_hexdigest (join "|" key_parts).

(** [cache_product_list(queryset, timeout=3600)]: the cache afterwards and
    the list returned.  The queryset is given by the rows it yields. *)
Definition cache_product_list (queryset : list Product.t) (timeout : Z)
    (cache : gmap string (list Product.t))
    : gmap string (list Product.t) * list Product.t :=
  let cache_key := get_cache_key "products_list" [] [("timeout", pretty timeout)] in
  match cache_get cache_key cache with
  | Some cached_data => (cache, cached_data)
  | None => (cache_set cache_key queryset cache, queryset)
  end.

(** [cache_category_list(queryset, timeout=3600)]. *)
Definition cache_category_list (queryset : list Category.t) (timeout : Z)
    (cache : gmap string (list Category.t))
    : gmap string (list Category.t) * list Category.t :=
  let cache_key := get_cache_key "categories_list" [] [("timeout", pretty timeout)] in
  match cache_get cache_key cache with
  | Some cached_data => (cache, cached_data)
  | None => (cache_set cache_key queryset cache, queryset)
  end.
End hashed.
End cache_utils.

(** ** Product views with cache invalidation (api/views.py) *)

Module catalog.
(** [StockUpdateSerializer]: [IntegerField(min_value=0)], then
    [validate_stock]. *)
Definition StockUpdate_is_valid (stock : option Z) : list (string * string) + Z :=
  match stock with
  | None => inl [("stock", "This field is required.")]
  | Some value =>
      if bool_decide (value < 0)
      then inl [("stock", "Ensure this value is greater than or equal to 0.")]
      else if bool_decide (value < 0)
      then inl [("stock", "Stock cannot be negative")]
      else inr value
  end.

(** What [ProductStockUpdateView.patch] answers: the updated product
    ([ProductSerializer(product).data]) or a refusal. *)
Inductive StockUpdateResponse :=
  | StockUpdated (code : Z) (message : string) (product : Product.t)
  | StockRefused (response : Response).

Section cached.
Context {V : Type}.

(** [ProductStockUpdateView.patch(request, pk)], on the database and the
    cache. *)
Definition ProductStockUpdateView_patch (pk : Z) (stock : option Z)
    (db : DB) (cache : gmap string V) : DB * gmap string V * StockUpdateResponse :=
  match models.Product_objects_get pk db with
  | Some product =>
      match StockUpdate_is_valid stock with
      | inr value =>
          let product := Product.with_stock value product in
          let db := with_products (table_update Product.id product (products db)) db in
          let cache :=
            cache_utils.invalidate_product_cache (Some (Product.id product)) cache in
          (db, cache, StockUpdated HTTP_200_OK "Stock updated successfully" product)
      | inl errors =>
          (db, cache,
           StockRefused (mkResponse HTTP_400_BAD_REQUEST (SerializerErrors errors)))
      end
  | None =>
      (db, cache,
       StockRefused (mkResponse HTTP_404_NOT_FOUND (ErrorBody "Product not found")))
  end.

(** [ProductDetailView.perform_destroy(instance)]: the cache is
    invalidated, then the product is deleted. *)
Definition ProductDetailView_perform_destroy (instance : Product.t)
    (db : DB) (cache : gmap string V) : DB * gmap string V :=
  let cache :=
    cache_utils.invalidate_product_cache (Some (Product.id instance)) cache in
  (models.Product_delete instance db, cache).
End cached.
End catalog.

(** ** Predicates of the properties *)

(** Running [m] leaves the database as it was, whatever it returns. *)
Definition keeps_db {A} (m : M A) : Prop := ∀ w, w_db (m w).1 = w_db w.

(** The status transitions as the specification lists them: pending to
    shipped or cancelled, shipped to delivered or cancelled, and none out
    of delivered or cancelled. *)
Definition listed_transition (current target : string) : bool :=
  bool_decide
    ((current, target) ∈ [("pending", "shipped"); ("pending", "cancelled");
                          ("shipped", "delivered"); ("shipped", "cancelled")]).

(** ** Sample data: the scenarios of the specification *)

Module sample.
Definition product_a : Product.t := Product.mk 1 "Product A" 2000 5 true.
Definition product_b : Product.t := Product.mk 2 "Product B" 1000 0 true.
Definition alice : User.t := User.mk 7 "alice".
Definition bob : User.t := User.mk 8 "bob".

(** Every task is delivered; the clock stands still. *)
Definition online : Env := mkEnv (λ _, TaskSent) (λ _, "2024-05-01T10:00:00").
(** No event loop runs: every [create_task] raises. *)
Definition offline : Env := mkEnv (λ _, TaskRaises) (λ _, "2024-05-01T10:00:00").

Definition world (env : Env) (db : DB) : World := mkWorld db [] 0 0 env.

(** An order of alice in a given status, and nothing else. *)
Definition order_in (status : string) : Order.t :=
  Order.mk 1 7 status 2000 "12 Mill Road".
Definition db_order (status : string) : DB :=
  mkDB (mkTable [product_a; product_b] 3) (mkTable [Cart.mk 1 7] 2)
    (mkTable [] 1) (mkTable [order_in status] 2)
    (mkTable [OrderItem.mk 1 1 1 1 2000] 2).

(** Alice holds the given lines in her cart; nothing is ordered yet. *)
Definition db_cart (lines : list CartItem.t) : DB :=
  mkDB (mkTable [product_a; product_b] 3) (mkTable [Cart.mk 1 7] 2)
    (mkTable lines (1 + Z.of_nat (length lines))) (mkTable [] 1) (mkTable [] 1).

(** One unit of product A is left; alice and bob each hold one in their
    cart. *)
Definition last_unit : Product.t := Product.mk 1 "Product A" 2000 1 true.
Definition db_race : DB :=
  mkDB (mkTable [last_unit] 2) (mkTable [Cart.mk 1 7; Cart.mk 2 8] 3)
    (mkTable [CartItem.mk 1 1 1 1; CartItem.mk 2 2 1 1] 3)
    (mkTable [] 1) (mkTable [] 1).
End sample.

(** [m] never ends in a [RuntimeError], the exception of a task that
    could not be started. *)
Definition quiet {A} (m : M A) : Prop :=
  ∀ w msg, (m w).2 ≠ Raise (RuntimeError msg).

(** The same world in other surroundings. *)
Definition with_env (env : Env) (w : World) : World :=
  {| w_db := w_db w; w_sent := w_sent w; w_tasks := w_tasks w;
     w_ticks := w_ticks w; w_env := env |}.

(** What [m] does to the database, and what it returns or raises, depends
    on the database alone: not on the surroundings, the tasks or the
    messages sent. *)
Definition oblivious {A} (m : M A) : Prop :=
  ∀ w1 w2, w_db w1 = w_db w2 →
    w_db (m w1).1 = w_db (m w2).1 ∧ (m w1).2 = (m w2).2.










(** Every character of a string passes a test. *)
Fixpoint string_forall (test : Ascii.ascii → bool) (s : string) : bool :=
  match s with
  | EmptyString => true
  | String c s' => test c && string_forall test s'
  end.

(** The characters of a formatted integer: the digits and the minus sign. *)
Definition is_numeric (c : Ascii.ascii) : bool :=
  bool_decide (48 ≤ Z.of_nat (Ascii.nat_of_ascii c) ≤ 57)
  || bool_decide (Ascii.nat_of_ascii c = 45%nat).

(** The characters of a hexadecimal digest: the digits and [a] to [f]. *)
Definition is_hex (c : Ascii.ascii) : bool :=
  bool_decide (48 ≤ Z.of_nat (Ascii.nat_of_ascii c) ≤ 57)
  || bool_decide (97 ≤ Z.of_nat (Ascii.nat_of_ascii c) ≤ 102).

(** A stand-in for the digest function, to run the hashed cache keys on:
    of the digest only its alphabet matters to what is proved. *)
Definition sample_digest (text : string) : string :=
  if bool_decide (text = "products_list|timeout:3600")
  then "0b5d1f2c8e7a4690b3c1d2e4f5a69788"
  else "7c9e6679f4b1a0d2c3e5f8a1b2c4d6e8".

(** Referential integrity of the items: every cart item and every order
    item refers to a product of the database. *)
Definition items_refer_to_products (db : DB) : Prop :=
  (∀ item, item ∈ rows (cart_items db) →
     is_Some (models.Product_objects_get (CartItem.product item) db))
  ∧ (∀ item, item ∈ rows (order_items db) →
       is_Some (models.Product_objects_get (OrderItem.product item) db)).

(** ** Product filters (api/filters.py) *)

Module filters.
(** [ProductFilter.filter_in_stock(queryset, name, value)]:
    [queryset.filter(stock__gt=0)] when [value] holds. *)
Definition filter_in_stock (queryset : list Product.t) (value : bool)
    : list Product.t :=
  if value then filter (λ p, Product.stock p > 0) queryset else queryset.

(** [ProductFilter.filter_out_of_stock(queryset, name, value)]:
    [queryset.filter(stock=0)] when [value] holds. *)
Definition filter_out_of_stock (queryset : list Product.t) (value : bool)
    : list Product.t :=
  if value then filter (λ p, Product.stock p = 0) queryset else queryset.
End filters.

(** Whatever [m] hands to the channel layer goes to a group that passes
    [P]: the messages delivered after [m] are those delivered before it,
    followed by messages to such groups. *)
Definition sends_only_to {A} (P : string → Prop) (m : M A) : Prop :=
  ∀ w, ∃ added,
    w_sent (m w).1 = w_sent w ++ added ∧ ∀ sent, sent ∈ added → P sent.1.
(** * Properties *)

(** ** Tables *)

Section table_facts.
Context {A : Type} (key : A → Z).
Implicit Types (tb : Table A) (row r : A) (k : Z).

Lemma table_get_key k tb r : table_get key k tb = Some r → key r = k.
Proof.
  unfold table_get. intros H. apply find_some in H as [_ H].
  by apply bool_decide_eq_true in H.
Qed.

Lemma table_get_elem k tb r : table_get key k tb = Some r → r ∈ rows tb.
Proof.
  unfold table_get. intros H. apply find_some in H as [H _].
  by apply list_elem_of_In.
Qed.

Lemma table_get_update k row tb :
  table_get key k (table_update key row tb) =
    if bool_decide (key row = k)
    then (λ _, row) <$> table_get key k tb
    else table_get key k tb.
Proof.
  unfold table_get, table_update; simpl.
  induction (rows tb) as [|r l IH]; csimpl; [by case_bool_decide|].
  rewrite IH. clear IH.
  repeat case_bool_decide; simpl; congruence.
Qed.

Lemma table_get_update_ne k row tb :
  key row ≠ k → table_get key k (table_update key row tb) = table_get key k tb.
Proof. intros H. rewrite table_get_update. by rewrite bool_decide_eq_false_2. Qed.

Lemma table_get_update_eq k row tb r :
  table_get key k tb = Some r → key row = k →
  table_get key k (table_update key row tb) = Some row.
Proof.
  intros H E. rewrite table_get_update, bool_decide_eq_true_2 by done.
  by rewrite H.
Qed.

Lemma elem_of_table_update row tb r :
  r ∈ rows (table_update key row tb) → r = row ∨ r ∈ rows tb.
Proof.
  unfold table_update; simpl. intros H.
  apply list_elem_of_fmap in H as (r0 & -> & H).
  case_bool_decide; auto.
Qed.
End table_facts.

(** ** Stock decrement *)

Lemma decrease_stock_true self quantity db :
  Product.stock self >= quantity →
  models.Product_decrease_stock self quantity db =
    (with_products
       (table_update Product.id
          (Product.with_stock (Product.stock self - quantity) self) (products db)) db,
     (Product.with_stock (Product.stock self - quantity) self, true)).
Proof.
  intros H. unfold models.Product_decrease_stock.
  by rewrite bool_decide_eq_true_2.
Qed.

Lemma decrease_stock_false self quantity db :
  ¬ Product.stock self >= quantity →
  models.Product_decrease_stock self quantity db = (db, (self, false)).
Proof.
  intros H. unfold models.Product_decrease_stock.
  by rewrite bool_decide_eq_false_2.
Qed.

Lemma decrease_stock_nonneg self quantity db :
  0 ≤ Product.stock self → stock_nonneg db →
  stock_nonneg (models.Product_decrease_stock self quantity db).1.
Proof.
  intros Hself Hdb.
  destruct (decide (Product.stock self >= quantity)) as [H|H].
  - rewrite decrease_stock_true by done. simpl.
    intros p Hp. apply elem_of_table_update in Hp as [->|Hp]; [simpl; lia|auto].
  - by rewrite decrease_stock_false.
Qed.

Lemma fetch_and_decrease_stock_nonneg product_id quantity db :
  stock_nonneg db → stock_nonneg (fetch_and_decrease_stock product_id quantity db).1.
Proof.
  intros Hdb. unfold fetch_and_decrease_stock.
  destruct (models.Product_objects_get product_id db) as [p|] eqn:Hget; [|done].
  pose proof (decrease_stock_nonneg p quantity db) as Hn.
  destruct (models.Product_decrease_stock p quantity db) as [db' [p' ok]].
  simpl in *. apply Hn; [|done].
  apply Hdb. by eapply table_get_elem.
Qed.

Lemma decrease_stock_sequence_nonneg calls db :
  stock_nonneg db → stock_nonneg (decrease_stock_sequence calls db).
Proof.
  revert db. induction calls as [|[product_id quantity] calls IH]; intros db H.
  - done.
  - simpl. by apply IH, fetch_and_decrease_stock_nonneg.
Qed.

(** C3.  [decrease_stock] returns a boolean; it returns [True] exactly when
    the stock is at least the quantity, and then the stock of the instance
    is the old stock less the quantity and the row of the product is saved
    with it; otherwise it returns [False] and leaves the instance and the
    database as they were.  Hence a stock that is not negative stays so,
    for the instance and, under any sequence of decrements, for every
    product of the database. *)
Theorem C3_decrease_stock_guarded
    (self : Product.t) (quantity : Z) (calls : list (Z * Z)) (db : DB) :
  let '(db', (self', ok)) := models.Product_decrease_stock self quantity db in
  (ok = true ↔ Product.stock self >= quantity)
  ∧ (ok = true →
       Product.stock self' = Product.stock self - quantity
       ∧ self' = Product.with_stock (Product.stock self - quantity) self
       ∧ products db' = table_update Product.id self' (products db)
       ∧ (∀ old, models.Product_objects_get (Product.id self) db = Some old →
                 models.Product_objects_get (Product.id self) db' = Some self'))
  ∧ (ok = false → self' = self ∧ db' = db)
  ∧ (0 ≤ Product.stock self → 0 ≤ Product.stock self')
  ∧ (stock_nonneg db → stock_nonneg (decrease_stock_sequence calls db)).
Proof.
  destruct (decide (Product.stock self >= quantity)) as [H|H].
  - rewrite decrease_stock_true by done.
    split_and!; try done.
    + intros _. split_and!; try done.
      intros old Hold. unfold models.Product_objects_get. simpl.
      by eapply table_get_update_eq.
    + simpl. lia.
    + apply decrease_stock_sequence_nonneg.
  - rewrite decrease_stock_false by done.
    split_and!; try done.
    apply decrease_stock_sequence_nonneg.
Qed.

Lemma C3_decrease_stock_guarded_witness :
  stock_nonneg
    (decrease_stock_sequence [(1, 2); (1, 5); (2, 1); (1, 3)] (sample.db_cart [])).
Proof.
  refine (proj2 (proj2 (proj2 (proj2
    (C3_decrease_stock_guarded sample.product_a 2
       [(1, 2); (1, 5); (2, 1); (1, 3)] (sample.db_cart []))))) _).
  intros product Hin. apply list_elem_of_In in Hin. simpl in Hin.
  destruct Hin as [<-|[<-|[]]]; vm_compute; discriminate.
Defined.

(** ** Notifications never touch the database and never escape *)

Lemma keeps_db_ret {A} (a : A) : keeps_db (ret a).
Proof. done. Qed.

Lemma keeps_db_bind {A B} (m : M A) (k : A → M B) :
  keeps_db m → (∀ a, keeps_db (k a)) → keeps_db (bind m k).
Proof.
  intros Hm Hk w. unfold bind. specialize (Hm w).
  destruct (m w) as [w' [a|e]]; simpl in *; [|done].
  by rewrite Hk.
Qed.

Lemma keeps_db_try_except {A} (m : M A) (h : exn → M A) :
  keeps_db m → (∀ e, keeps_db (h e)) → keeps_db (try_except m h).
Proof.
  intros Hm Hh w. unfold try_except. specialize (Hm w).
  destruct (m w) as [w' [a|e]]; simpl in *; [done|].
  by rewrite Hh.
Qed.

Lemma keeps_db_create_task group event : keeps_db (create_task group event).
Proof. intros w. unfold create_task. by destruct (task_outcome _ _). Qed.

Lemma keeps_db_now : keeps_db datetime_now_isoformat.
Proof. done. Qed.

Create HintDb keeps_db.
#[local] Hint Resolve keeps_db_ret keeps_db_bind keeps_db_try_except
  keeps_db_create_task keeps_db_now : keeps_db.

(** [try: m except Exception: pass] returns normally. *)
Lemma swallowed {A} (m : M A) (a : A) w :
  keeps_db m →
  (∀ w' a', m w = (w', Ok a') → a' = a) →
  ∃ w', try_except m (λ _, ret a) w = (w', Ok a) ∧ w_db w' = w_db w.
Proof.
  intros Hm Ha. unfold try_except. specialize (Hm w).
  destruct (m w) as [w' [a'|e]] eqn:E; simpl in *.
  - exists w'. by rewrite (Ha w' a').
  - by exists w'.
Qed.

Lemma notify_status_change_run order old_status new_status w :
  ∃ w', views.notify_status_change order old_status new_status w = (w', Ok tt)
        ∧ w_db w' = w_db w.
Proof.
  apply swallowed; [|by intros ? []].
  unfold consumers.OrderConsumer_send_order_update,
    consumers.AdminOrderConsumer_notify_order_status_change.
  auto 10 with keeps_db.
Qed.


Lemma Order_update_status_run self new_status w :
  ∃ w', models.Order_update_status self new_status w
          = (w', Ok (Order.with_status new_status self))
        ∧ w_db w' =
            with_orders
              (table_update Order.id (Order.with_status new_status self)
                 (orders (w_db w)))
              (w_db w).
Proof.
  unfold models.Order_update_status, bind at 1, lift_db. simpl.
  set (w1 := with_db _ w).
  destruct (swallowed
    (consumers.OrderConsumer_send_order_update (Order.user self) (Order.id self)
       (Order.status self) new_status
       ("Your order #" +:+ pretty (Order.id self) +:+
        " status has been updated to " +:+ new_status) None) tt w1)
    as (w' & Hrun & Hdb).
  { apply keeps_db_create_task. }
  { by intros ? []. }
  exists w'. unfold bind. simpl. rewrite Hrun. by rewrite Hdb.
Qed.

(** ** Status updates *)

Lemma patch_missing order_id status w :
  views.Order_objects_get order_id (w_db w) = None →
  views.AdminOrderStatusUpdateView_patch order_id status w
    = (w, Ok (mkResponse HTTP_404_NOT_FOUND (ErrorBody "Order not found"))).
Proof.
  intros H. unfold views.AdminOrderStatusUpdateView_patch, bind, get_db.
  simpl. by rewrite H.
Qed.

Lemma patch_refused order_id order status errors w :
  views.Order_objects_get order_id (w_db w) = Some order →
  serializers.UpdateOrderStatus_is_valid status order = inl errors →
  views.AdminOrderStatusUpdateView_patch order_id status w
    = (w, Ok (mkResponse HTTP_400_BAD_REQUEST (SerializerErrors errors))).
Proof.
  intros H E. unfold views.AdminOrderStatusUpdateView_patch, bind, get_db.
  simpl. by rewrite H, E.
Qed.

Lemma patch_accepted order_id order status new_status w :
  views.Order_objects_get order_id (w_db w) = Some order →
  serializers.UpdateOrderStatus_is_valid status order = inr new_status →
  ∃ w',
    views.AdminOrderStatusUpdateView_patch order_id status w
      = (w', Ok (mkResponse HTTP_200_OK
                   (OrderBody ("Order status updated to " +:+ new_status)
                      (Order.with_status new_status order)
                      (filter (λ item, OrderItem.order item = Order.id order)
                         (rows (order_items (w_db w)))))))
    ∧ w_db w' =
        with_orders
          (table_update Order.id (Order.with_status new_status order)
             (orders (w_db w)))
          (w_db w).
Proof.
  intros H E.
  destruct (Order_update_status_run order new_status w) as (w1 & Hrun1 & Hdb1).
  destruct (notify_status_change_run (Order.with_status new_status order)
              (Order.status order) new_status w1) as (w2 & Hrun2 & Hdb2).
  exists w2. split; [|congruence].
  unfold views.AdminOrderStatusUpdateView_patch, bind, get_db.
  simpl. rewrite H, E, Hrun1, Hrun2.
  unfold views.order_response, bind, get_db, ret. simpl.
  by rewrite Hdb2, Hdb1.
Qed.

Lemma is_valid_status_accepts order target :
  target ∈ Order.STATUS_CHOICES →
  (Order.status order ∈ ["delivered"; "cancelled"] →
   target ∈ ["delivered"; "cancelled"]) →
  serializers.UpdateOrderStatus_is_valid (Some target) order = inr target.
Proof.
  intros Hc Ht. unfold serializers.UpdateOrderStatus_is_valid.
  rewrite bool_decide_eq_true_2 by done.
  unfold serializers.UpdateOrderStatus_validate_status.
  destruct (decide (Order.status order ∈ ["delivered"; "cancelled"])) as [H|H].
  - rewrite (bool_decide_eq_true_2 _ H).
    by rewrite (bool_decide_eq_true_2 _ (Ht H)).
  - by rewrite (bool_decide_eq_false_2 _ H).
Qed.

Lemma is_valid_status_refuses order target :
  ¬ (target ∈ Order.STATUS_CHOICES
     ∧ (Order.status order ∈ ["delivered"; "cancelled"] →
        target ∈ ["delivered"; "cancelled"])) →
  ∃ errors, serializers.UpdateOrderStatus_is_valid (Some target) order = inl errors.
Proof.
  intros Hn. unfold serializers.UpdateOrderStatus_is_valid.
  case_bool_decide as Hc; [|by eexists].
  unfold serializers.UpdateOrderStatus_validate_status.
  destruct (decide (Order.status order ∈ ["delivered"; "cancelled"])) as [H|H].
  - rewrite (bool_decide_eq_true_2 _ H).
    case_bool_decide as Ht; simpl; [|by eexists].
    destruct Hn. by split.
  - destruct Hn. split; [done|]. by intros ?.
Qed.

(** C2, as the code has it.  For every order and every requested status,
    the status update is accepted exactly when the requested status is one
    of the four choices and it is not a move from delivered or cancelled to
    pending or shipped.  An accepted update answers 200 and stores the
    requested status; a refused one answers 400 and leaves everything as it
    was.  So pending to delivered, shipped to pending, any status to itself
    and delivered to cancelled (and back) are all accepted. *)
Theorem C2_status_update_guard
    (w : World) (order_id : Z) (order : Order.t) (target : string)
    (Hget : views.Order_objects_get order_id (w_db w) = Some order) :
  let out := views.AdminOrderStatusUpdateView_patch order_id (Some target) w in
  let allowed :=
    target ∈ Order.STATUS_CHOICES
    ∧ (Order.status order ∈ ["delivered"; "cancelled"] →
       target ∈ ["delivered"; "cancelled"]) in
  (allowed →
     (∃ items,
        out.2 = Ok (mkResponse HTTP_200_OK
                      (OrderBody ("Order status updated to " +:+ target)
                         (Order.with_status target order) items)))
     ∧ views.Order_objects_get order_id (w_db out.1)
         = Some (Order.with_status target order))
  ∧ (¬ allowed →
     out.1 = w
     ∧ ∃ errors,
         out.2 = Ok (mkResponse HTTP_400_BAD_REQUEST (SerializerErrors errors))).
Proof.
  intros out allowed. subst out. split.
  - intros [Hc Ht].
    destruct (patch_accepted order_id order (Some target) target w Hget)
      as (w' & -> & Hdb); [by apply is_valid_status_accepts|].
    simpl. split; [by eexists|].
    rewrite Hdb. unfold views.Order_objects_get. simpl.
    eapply table_get_update_eq; [done|].
    simpl. by eapply table_get_key.
  - intros Hn. destruct (is_valid_status_refuses order target Hn) as [errors E].
    rewrite (patch_refused order_id order (Some target) errors w Hget E).
    simpl. split; [done|by eexists].
Qed.

Lemma C2_status_update_guard_witness :
  let out :=
    views.AdminOrderStatusUpdateView_patch 1 (Some "shipped")
      (sample.world sample.online (sample.db_order "pending")) in
  views.Order_objects_get 1 (w_db out.1)
    = Some (Order.with_status "shipped" (sample.order_in "pending")).
Proof.
  refine (proj2 (proj1 (C2_status_update_guard
    (sample.world sample.online (sample.db_order "pending")) 1
    (sample.order_in "pending") "shipped" eq_refl) _)).
  apply (bool_decide_unpack _). vm_compute. exact I.
Defined.

(** C2, as stated, fails: a pending order is moved to delivered, and a
    delivered order is moved to cancelled, neither being a listed
    transition. *)
Lemma C2_counterexample :
  listed_transition "pending" "delivered" = false
  ∧ (let out :=
       views.AdminOrderStatusUpdateView_patch 1 (Some "delivered")
         (sample.world sample.online (sample.db_order "pending")) in
     out.2 = Ok (mkResponse 200
                   (OrderBody "Order status updated to delivered"
                      (sample.order_in "delivered") [OrderItem.mk 1 1 1 1 2000]))
     ∧ views.Order_objects_get 1 (w_db out.1) = Some (sample.order_in "delivered"))
  ∧ listed_transition "delivered" "cancelled" = false
  ∧ (let out :=
       views.AdminOrderStatusUpdateView_patch 1 (Some "cancelled")
         (sample.world sample.online (sample.db_order "delivered")) in
     out.2 = Ok (mkResponse 200
                   (OrderBody "Order status updated to cancelled"
                      (sample.order_in "cancelled") [OrderItem.mk 1 1 1 1 2000]))
     ∧ views.Order_objects_get 1 (w_db out.1) = Some (sample.order_in "cancelled")).
Proof. vm_compute. repeat split. Qed.

(** ** Cache invalidation *)

Section cache_facts.
Context {V : Type}.
Implicit Types (cache : gmap string V) (key pattern : string).

Lemma lookup_delete_pattern pattern cache key :
  cache_utils.cache_delete_pattern pattern cache !! key =
    if cache_utils.glob_match pattern key then None else cache !! key.
Proof.
  unfold cache_utils.cache_delete_pattern. rewrite map_lookup_filter.
  destruct (cache !! key) as [v|]; simpl.
  - case_guard as Hg; simpl in *;
      by destruct (cache_utils.glob_match pattern key).
  - by destruct (cache_utils.glob_match pattern key).
Qed.

Lemma lookup_delete_pattern_None pattern cache key :
  cache !! key = None →
  cache_utils.cache_delete_pattern pattern cache !! key = None.
Proof.
  intros H. rewrite lookup_delete_pattern, H.
  by destruct (cache_utils.glob_match pattern key).
Qed.

Lemma lookup_delete_pattern_Some pattern cache key v :
  cache_utils.cache_delete_pattern pattern cache !! key = Some v →
  cache !! key = Some v ∧ cache_utils.glob_match pattern key = false.
Proof.
  rewrite lookup_delete_pattern.
  by destruct (cache_utils.glob_match pattern key).
Qed.

(** What survives an invalidation was in the cache before, and under a
    key that none of the three list patterns matches. *)
Lemma invalidate_product_cache_Some product_id cache key v :
  cache_utils.invalidate_product_cache product_id cache !! key = Some v →
  cache !! key = Some v
  ∧ cache_utils.glob_match "*products_list*" key = false
  ∧ cache_utils.glob_match "*product_list*" key = false
  ∧ cache_utils.glob_match "*public_products*" key = false
  ∧ (cache_utils.truthy product_id = true →
     ∀ n, product_id = Some n →
          key ≠ "product_detail_" +:+ pretty n ∧ key ≠ "product_" +:+ pretty n).
Proof.
  unfold cache_utils.invalidate_product_cache. intros H.
  apply lookup_delete_pattern_Some in H as [H H3].
  apply lookup_delete_pattern_Some in H as [H H2].
  apply lookup_delete_pattern_Some in H as [H H1].
  split_and!; try done.
  - destruct product_id as [n|]; [|done].
    destruct (cache_utils.truthy (Some n)); [|done].
    unfold cache_utils.cache_delete in H.
    apply lookup_delete_Some in H as [_ H].
    by apply lookup_delete_Some in H as [_ H].
  - intros Ht n ->. rewrite Ht in H. unfold cache_utils.cache_delete in H.
    apply lookup_delete_Some in H as [Hne2 H].
    apply lookup_delete_Some in H as [Hne1 H].
    done.
Qed.

End cache_facts.


(** With [product_id] 0, which no product has, [if product_id:] is false
    and the detail key stays. *)
Lemma invalidate_product_cache_zero :
  cache_utils.get_cached_product 0
    (cache_utils.invalidate_product_cache (Some 0)
       (<["product_detail_0" := sample.product_a]> ∅))
  = Some sample.product_a.
Proof. vm_compute. reflexivity. Qed.

(** ** Notifications *)



(** In a thread without a running event loop every [create_task] raises,
    both handlers swallow it, and the same update sends nothing. *)
Lemma status_update_offline_sends_nothing :
  let out :=
    views.AdminOrderStatusUpdateView_patch 1 (Some "shipped")
      (sample.world sample.offline (sample.db_order "pending")) in
  w_sent out.1 = []
  ∧ out.2 = Ok (mkResponse 200
                  (OrderBody "Order status updated to shipped"
                     (sample.order_in "shipped") [OrderItem.mk 1 1 1 1 2000])).
Proof. vm_compute. split; reflexivity. Qed.

(** *** The business result does not depend on the notifications *)

Lemma oblivious_ret {A} (a : A) : oblivious (ret a).
Proof. by intros w1 w2 H. Qed.

Lemma oblivious_raise {A} (e : exn) : oblivious (raise (A := A) e).
Proof. by intros w1 w2 H. Qed.

Lemma oblivious_get_db : oblivious get_db.
Proof. intros w1 w2 H. simpl. by rewrite H. Qed.

Lemma oblivious_lift_db {A} (f : DB → DB * A) : oblivious (lift_db f).
Proof.
  intros w1 w2 H. unfold lift_db. rewrite H.
  by destruct (f (w_db w2)).
Qed.

Lemma oblivious_get_or_raise {A} (model : string) (o : option A) :
  oblivious (get_or_raise model o).
Proof. destruct o; [apply oblivious_ret|apply oblivious_raise]. Qed.

Lemma oblivious_bind {A B} (m : M A) (k : A → M B) :
  oblivious m → (∀ a, oblivious (k a)) → oblivious (bind m k).
Proof.
  intros Hm Hk w1 w2 H. unfold bind.
  destruct (Hm w1 w2 H) as [Hdb Hres].
  destruct (m w1) as [w1' r1], (m w2) as [w2' r2]; simpl in *. subst r2.
  destruct r1 as [a|e]; [by apply Hk|done].
Qed.

(** A block that keeps the database and whose exceptions are swallowed. *)
Lemma oblivious_swallow (m : M unit) :
  keeps_db m → oblivious (try_except m (λ _, ret tt)).
Proof.
  intros Hm w1 w2 H. unfold try_except.
  pose proof (Hm w1) as H1. pose proof (Hm w2) as H2.
  destruct (m w1) as [w1' [[]|e1]], (m w2) as [w2' [[]|e2]]; simpl in *;
    split; congruence.
Qed.

Lemma oblivious_for_each {A} (xs : list A) (body : A → M unit) :
  (∀ x, oblivious (body x)) → oblivious (for_each xs body).
Proof.
  intros Hb. induction xs as [|x xs IH]; simpl.
  - apply oblivious_ret.
  - apply oblivious_bind; [apply Hb|by intros _].
Qed.

Lemma oblivious_sum_of {A} (f : A → M Z) (xs : list A) (acc : Z) :
  (∀ x, oblivious (f x)) → oblivious (models.sum_of f xs acc).
Proof.
  intros Hf. revert acc. induction xs as [|x xs IH]; intros acc; simpl.
  - apply oblivious_ret.
  - apply oblivious_bind; [apply Hf|]. intros v. apply IH.
Qed.

(** Splits the goal along the shape of the code. *)
Ltac oblivious_step :=
  first
    [ apply oblivious_ret | apply oblivious_raise | apply oblivious_get_db
    | apply oblivious_lift_db | apply oblivious_get_or_raise
    | apply oblivious_bind; [|intros ?]
    | apply oblivious_for_each; intros ?
    | apply oblivious_sum_of; intros ?
    | match goal with
      | |- oblivious (match ?x with _ => _ end) => destruct x
      end ].

Lemma oblivious_CartItem_product item : oblivious (models.CartItem_product item).
Proof. unfold models.CartItem_product. repeat oblivious_step. Qed.

Lemma oblivious_validate_stock items : oblivious (views.validate_stock items).
Proof.
  induction items as [|item items IH]; simpl.
  - apply oblivious_ret.
  - apply oblivious_bind; [apply oblivious_CartItem_product|].
    intros product. destruct (bool_decide _); [apply oblivious_ret|apply IH].
Qed.

Lemma oblivious_notify_order_created user order :
  oblivious (views.notify_order_created user order).
Proof.
  apply oblivious_swallow.
  unfold consumers.OrderConsumer_send_order_created,
    consumers.AdminOrderConsumer_notify_new_order.
  auto 10 with keeps_db.
Qed.

Lemma oblivious_notify_status_change order old_status new_status :
  oblivious (views.notify_status_change order old_status new_status).
Proof.
  apply oblivious_swallow.
  unfold consumers.OrderConsumer_send_order_update,
    consumers.AdminOrderConsumer_notify_order_status_change.
  auto 10 with keeps_db.
Qed.

Lemma oblivious_Order_update_status self new_status :
  oblivious (models.Order_update_status self new_status).
Proof.
  unfold models.Order_update_status.
  apply oblivious_bind; [apply oblivious_lift_db|]. intros _.
  apply oblivious_bind; [|intros _; apply oblivious_ret].
  apply oblivious_swallow, keeps_db_create_task.
Qed.

Lemma oblivious_CreateOrderView_post user shipping_address :
  oblivious (views.CreateOrderView_post user shipping_address).
Proof.
  unfold views.CreateOrderView_post, views.CreateOrderView_checks,
    views.CreateOrderView_place, views.create_order_item,
    views.order_response, models.Cart_total_price, models.CartItem_total_price.
  repeat first
    [ apply oblivious_validate_stock | apply oblivious_CartItem_product
    | apply oblivious_notify_order_created | oblivious_step ].
Qed.

Lemma oblivious_AdminOrderStatusUpdateView_patch order_id status :
  oblivious (views.AdminOrderStatusUpdateView_patch order_id status).
Proof.
  unfold views.AdminOrderStatusUpdateView_patch, views.order_response.
  repeat first
    [ apply oblivious_Order_update_status
    | apply oblivious_notify_status_change | oblivious_step ].
Qed.

(** *** No failure of a task reaches the caller *)

Lemma quiet_ret {A} (a : A) : quiet (ret a).
Proof. by intros w msg. Qed.

Lemma quiet_get_db : quiet get_db.
Proof. by intros w msg. Qed.

Lemma quiet_lift_db {A} (f : DB → DB * A) : quiet (lift_db f).
Proof. intros w msg. unfold lift_db. by destruct (f (w_db w)). Qed.

Lemma quiet_get_or_raise {A} (model : string) (o : option A) :
  quiet (get_or_raise model o).
Proof. intros w msg. by destruct o. Qed.

Lemma quiet_bind {A B} (m : M A) (k : A → M B) :
  quiet m → (∀ a, quiet (k a)) → quiet (bind m k).
Proof.
  intros Hm Hk w msg. unfold bind. specialize (Hm w msg).
  destruct (m w) as [w' [a|e]]; simpl in *; [apply Hk|].
  intros [= ->]. by apply Hm.
Qed.

Lemma quiet_swallow (m : M unit) : quiet (try_except m (λ _, ret tt)).
Proof. intros w msg. unfold try_except. by destruct (m w) as [w' [[]|e]]. Qed.

Lemma quiet_for_each {A} (xs : list A) (body : A → M unit) :
  (∀ x, quiet (body x)) → quiet (for_each xs body).
Proof.
  intros Hb. induction xs as [|x xs IH]; simpl.
  - apply quiet_ret.
  - apply quiet_bind; [apply Hb|by intros _].
Qed.

Lemma quiet_sum_of {A} (f : A → M Z) (xs : list A) (acc : Z) :
  (∀ x, quiet (f x)) → quiet (models.sum_of f xs acc).
Proof.
  intros Hf. revert acc. induction xs as [|x xs IH]; intros acc; simpl.
  - apply quiet_ret.
  - apply quiet_bind; [apply Hf|]. intros v. apply IH.
Qed.

Ltac quiet_step :=
  first
    [ apply quiet_ret | apply quiet_get_db | apply quiet_lift_db
    | apply quiet_get_or_raise | apply quiet_swallow
    | apply quiet_bind; [|intros ?]
    | apply quiet_for_each; intros ?
    | apply quiet_sum_of; intros ?
    | match goal with
      | |- quiet (match ?x with _ => _ end) => destruct x
      end ].

Lemma quiet_validate_stock items : quiet (views.validate_stock items).
Proof.
  induction items as [|item items IH]; simpl.
  - apply quiet_ret.
  - apply quiet_bind; [unfold models.CartItem_product; repeat quiet_step|].
    intros product. destruct (bool_decide _); [apply quiet_ret|apply IH].
Qed.

Lemma quiet_CreateOrderView_post user shipping_address :
  quiet (views.CreateOrderView_post user shipping_address).
Proof.
  unfold views.CreateOrderView_post, views.CreateOrderView_checks,
    views.CreateOrderView_place, views.create_order_item,
    views.order_response, views.notify_order_created,
    models.Cart_total_price, models.CartItem_total_price,
    models.CartItem_product.
  repeat first [ apply quiet_validate_stock | quiet_step ].
Qed.

Lemma quiet_AdminOrderStatusUpdateView_patch order_id status :
  quiet (views.AdminOrderStatusUpdateView_patch order_id status).
Proof.
  unfold views.AdminOrderStatusUpdateView_patch, views.order_response,
    views.notify_status_change, models.Order_update_status.
  repeat quiet_step.
Qed.

(** C9.  Run order creation, or a status update, in any surroundings: with
    every notification task raising, lost, or delivered.  The response and
    the database are the ones of the run in which every notification is
    delivered, and the exception of a failed task never leaves the view: a
    failing notification is swallowed, it changes neither the response nor
    what was written. *)
Theorem C9_notification_failure_isolated
    (w : World) (user : User.t) (shipping_address : option string)
    (order_id : Z) (status : option string) :
  let delivered := with_env (mkEnv (λ _, TaskSent) (now (w_env w))) w in
  (let out := views.CreateOrderView_post user shipping_address w in
   let out' := views.CreateOrderView_post user shipping_address delivered in
   out.2 = out'.2 ∧ w_db out.1 = w_db out'.1
   ∧ ∀ msg, out.2 ≠ Raise (RuntimeError msg))
  ∧ (let out := views.AdminOrderStatusUpdateView_patch order_id status w in
     let out' := views.AdminOrderStatusUpdateView_patch order_id status delivered in
     out.2 = out'.2 ∧ w_db out.1 = w_db out'.1
     ∧ ∀ msg, out.2 ≠ Raise (RuntimeError msg)).
Proof.
  intros delivered. split.
  - destruct (oblivious_CreateOrderView_post user shipping_address w delivered)
      as [Hdb Hres]; [done|].
    split_and!; [done..|]. apply quiet_CreateOrderView_post.
  - destruct (oblivious_AdminOrderStatusUpdateView_patch order_id status w delivered)
      as [Hdb Hres]; [done|].
    split_and!; [done..|]. apply quiet_AdminOrderStatusUpdateView_patch.
Qed.

(** The scenario of the specification, with no event loop running: one
    unit of product A (stock 5, price 20.00) is ordered; the answer is 201,
    the total is 20.00, the stock is 4, the cart is empty, nothing is
    sent. *)
Lemma order_offline_still_created :
  let out :=
    views.CreateOrderView_post sample.alice (Some "12 Mill Road")
      (sample.world sample.offline (sample.db_cart [CartItem.mk 1 1 1 1])) in
  out.2 = Ok (mkResponse 201
                (OrderBody "Order created successfully"
                   (Order.mk 1 7 "pending" 2000 "12 Mill Road")
                   [OrderItem.mk 1 1 1 1 2000]))
  ∧ models.Product_objects_get 1 (w_db out.1)
      = Some (Product.mk 1 "Product A" 2000 4 true)
  ∧ rows (cart_items (w_db out.1)) = []
  ∧ w_sent out.1 = [].
Proof. vm_compute. repeat split. Qed.

(** The same order with every task delivered: the customer gets one
    [order_created], the admins one [new_order]. *)
Lemma order_online_notifies_once :
  let out :=
    views.CreateOrderView_post sample.alice (Some "12 Mill Road")
      (sample.world sample.online (sample.db_cart [CartItem.mk 1 1 1 1])) in
  w_sent out.1
  = [ ("user_7",
       order_created 1 "Your order #1 has been created successfully!"
         "2024-05-01T10:00:00");
      ("admin_orders",
       new_order 1 7 "alice" 2000 "New order #1 created by alice"
         "2024-05-01T10:00:00") ].
Proof. vm_compute. reflexivity. Qed.

(** ** Order creation *)

Lemma bind_run {A B} (m : M A) (k : A → M B) w w' a :
  m w = (w', Ok a) → bind m k w = k a w'.
Proof. intros H. unfold bind. by rewrite H. Qed.














Lemma Cart_items_after_clear cart db :
  models.Cart_items cart (models.Cart_clear cart db) = [].
Proof.
  unfold models.Cart_items, models.Cart_clear. simpl.
  rewrite list_filter_filter.
  induction (rows (cart_items db)) as [|r l IH]; [done|].
  rewrite filter_cons_False; [done|].
  intros [E1 E2]. apply bool_decide_eq_false in E2. done.
Qed.

Lemma Cart_items_after_clear_other cart other db :
  Cart.id other ≠ Cart.id cart →
  models.Cart_items other (models.Cart_clear cart db) = models.Cart_items other db.
Proof.
  intros Hne. unfold models.Cart_items, models.Cart_clear. simpl.
  apply list_filter_filter_l.
  intros r E. apply bool_decide_eq_false. congruence.
Qed.










(** ** The cart *)


Lemma get_or_create_cart_keeps user db :
  let db0 := (views.Cart_objects_get_or_create user db).1 in
  products db0 = products db ∧ cart_items db0 = cart_items db
  ∧ orders db0 = orders db ∧ order_items db0 = order_items db.
Proof.
  unfold views.Cart_objects_get_or_create.
  by destruct (views.Cart_objects_get user db).
Qed.






(** *** The cart-stock invariant *)















(** * Further properties of the code *)

(** ** Strings and cache keys *)

Lemma string_forall_impl (test1 test2 : Ascii.ascii → bool) s :
  (∀ c, test1 c = true → test2 c = true) →
  string_forall test1 s = true → string_forall test2 s = true.
Proof.
  intros Himpl. induction s as [|c s IH]; simpl; [done|].
  intros H. apply andb_true_iff in H as [H1 H2].
  by rewrite (Himpl c H1), IH.
Qed.

Lemma string_forall_app test s1 s2 :
  string_forall test (s1 +:+ s2)
  = string_forall test s1 && string_forall test s2.
Proof.
  induction s1 as [|c s1 IH]; [done|].
  change (String c s1 +:+ s2) with (String c (s1 +:+ s2)). simpl.
  by rewrite IH, andb_assoc.
Qed.

Lemma pretty_N_char_numeric x : is_numeric (pretty_N_char x) = true.
Proof. unfold pretty_N_char. by repeat case_match. Qed.

Lemma pretty_N_go_numeric x s :
  string_forall is_numeric s = true →
  string_forall is_numeric (pretty_N_go x s) = true.
Proof.
  revert s. induction (N.lt_wf_0 x) as [x _ IH]; intros s Hs.
  assert (x = 0 ∨ 0 < x)%N as [->|Hx] by lia.
  - by rewrite pretty_N_go_0.
  - rewrite pretty_N_go_step by done. apply IH.
    + by apply N.div_lt.
    + simpl. by rewrite pretty_N_char_numeric, Hs.
Qed.

Lemma pretty_N_numeric (x : N) : string_forall is_numeric (pretty x) = true.
Proof.
  unfold pretty, pretty_N. case_decide; [done|]. by apply pretty_N_go_numeric.
Qed.

(** A formatted integer is made of digits and the minus sign. *)
Lemma pretty_Z_numeric (n : Z) : string_forall is_numeric (pretty n) = true.
Proof.
  destruct n as [|p|p]; [done|..].
  - apply pretty_N_numeric.
  - change (pretty (Z.neg p)) with ("-" +:+ pretty (N.pos p)).
    rewrite string_forall_app. by rewrite pretty_N_numeric.
Qed.

Lemma glob_star_nil pattern :
  cache_utils.glob_match (String cache_utils.star pattern) EmptyString
  = cache_utils.glob_match pattern EmptyString.
Proof. simpl. by rewrite orb_false_r. Qed.

Lemma glob_star_cons pattern c key :
  cache_utils.glob_match (String cache_utils.star pattern) (String c key)
  = cache_utils.glob_match pattern (String c key)
    || cache_utils.glob_match (String cache_utils.star pattern) key.
Proof. reflexivity. Qed.

(** A pattern [*c...] matches no key in which [c] does not occur. *)
Lemma glob_first_absent c pattern key :
  c ≠ cache_utils.star →
  string_forall (λ c', negb (bool_decide (c' = c))) key = true →
  cache_utils.glob_match (String cache_utils.star (String c pattern)) key = false.
Proof.
  intros Hc. induction key as [|c' key IH]; intros Hkey.
  - rewrite glob_star_nil. simpl. by rewrite bool_decide_eq_false_2.
  - simpl in Hkey. apply andb_true_iff in Hkey as [Hc' Hkey].
    rewrite glob_star_cons, IH by done. rewrite orb_false_r.
    simpl. rewrite (bool_decide_eq_false_2 (c = cache_utils.star)) by done.
    apply negb_true_iff, bool_decide_eq_false in Hc'.
    rewrite bool_decide_eq_false_2; [done|congruence].
Qed.

Lemma detail_key_inj (prefix : string) (a b : Z) :
  prefix +:+ pretty a = prefix +:+ pretty b → a = b.
Proof. intros H. by apply (inj pretty), (inj (String.app prefix)). Qed.

(** Walks a pattern [*...] along the known characters of a key. *)
Ltac glob_walk :=
  repeat
    (rewrite glob_star_cons;
     match goal with
     | |- context [cache_utils.glob_match ?p (String ?c ?k) || _] =>
         let b := eval vm_compute in (cache_utils.glob_match p (String c k)) in
         change (cache_utils.glob_match p (String c k)) with b
     end;
     cbn [orb]).

Lemma numeric_without (c : Ascii.ascii) (s : string) :
  is_numeric c = false →
  string_forall is_numeric s = true →
  string_forall (λ c', negb (bool_decide (c' = c))) s = true.
Proof.
  intros Hc. apply string_forall_impl. intros c' Hc'.
  apply negb_true_iff, bool_decide_eq_false. congruence.
Qed.

(** No product-list pattern matches the detail key of a product. *)
Lemma product_detail_key_unmatched (n : Z) :
  cache_utils.glob_match "*products_list*" ("product_detail_" +:+ pretty n) = false
  ∧ cache_utils.glob_match "*product_list*" ("product_detail_" +:+ pretty n) = false
  ∧ cache_utils.glob_match "*public_products*" ("product_detail_" +:+ pretty n) = false.
Proof.
  pose proof (pretty_Z_numeric n) as Hn.
  cbv beta iota delta [String.append].
  split_and!; glob_walk;
    (apply glob_first_absent; [done|]); by apply numeric_without.
Qed.

(** No category-list pattern matches the detail key of a category. *)
Lemma category_detail_key_unmatched (n : Z) :
  cache_utils.glob_match "*categories_list*" ("category_detail_" +:+ pretty n) = false
  ∧ cache_utils.glob_match "*category_list*" ("category_detail_" +:+ pretty n) = false
  ∧ cache_utils.glob_match "*public_categories*" ("category_detail_" +:+ pretty n)
    = false.
Proof.
  pose proof (pretty_Z_numeric n) as Hn.
  cbv beta iota delta [String.append].
  split_and!; glob_walk;
    (apply glob_first_absent; [done|]); by apply numeric_without.
Qed.

(** ** The cache of product and category details *)

Lemma not_numeric_pretty (c : Ascii.ascii) (s : string) (n : Z) :
  is_numeric c = false → String c s ≠ pretty n.
Proof.
  intros Hc E. pose proof (pretty_Z_numeric n) as Hn.
  rewrite <- E in Hn. simpl in Hn. by rewrite Hc in Hn.
Qed.

(** X1.  A product cached by [set_cached_product] is what
    [get_cached_product] returns for its id, and caching it changes what is
    read for no other id: the detail keys of different ids differ. *)
Theorem set_then_get_cached_product
    (product : Product.t) (other : Z) (cache : gmap string Product.t) :
  cache_utils.get_cached_product (Product.id product)
    (cache_utils.set_cached_product product cache) = Some product
  ∧ (other ≠ Product.id product →
     cache_utils.get_cached_product other
       (cache_utils.set_cached_product product cache)
     = cache_utils.get_cached_product other cache).
Proof.
  unfold cache_utils.get_cached_product, cache_utils.set_cached_product,
    cache_utils.cache_get, cache_utils.cache_set.
  split.
  - apply lookup_insert_eq.
  - intros Hne. apply lookup_insert_ne. intros E.
    by apply detail_key_inj in E.
Qed.

Lemma set_then_get_cached_product_witness :
  cache_utils.get_cached_product 2
    (cache_utils.set_cached_product sample.product_a
       (cache_utils.set_cached_product sample.product_b ∅))
  = Some sample.product_b.
Proof.
  rewrite (proj2 (set_then_get_cached_product sample.product_a 2
                    (cache_utils.set_cached_product sample.product_b ∅)));
    [|vm_compute; discriminate].
  exact (proj1 (set_then_get_cached_product sample.product_b 2 ∅)).
Defined.

Section cache_more_facts.
Context {V : Type}.
Implicit Types (cache : gmap string V) (key : string).

Lemma detail_kept_by_invalidation
    (product_id : option Z) (other : Z) (cache : gmap string V) :
  product_id ≠ Some other →
  cache_utils.invalidate_product_cache product_id cache
    !! ("product_detail_" +:+ pretty other)
  = cache !! ("product_detail_" +:+ pretty other).
Proof.
  intros Hother. unfold cache_utils.invalidate_product_cache.
  destruct (product_detail_key_unmatched other) as (H1 & H2 & H3).
  rewrite !lookup_delete_pattern, H1, H2, H3.
  destruct product_id as [n|]; [|done].
  destruct (cache_utils.truthy (Some n)); [|done].
  unfold cache_utils.cache_delete.
  rewrite lookup_delete_ne.
  - apply lookup_delete_ne. intros E. apply detail_key_inj in E. congruence.
  - intros E.
    change ("product_detail_" +:+ pretty other)
      with ("product_" +:+ ("detail_" +:+ pretty other)) in E.
    apply (inj (String.app "product_")) in E.
    symmetry in E. revert E. by apply not_numeric_pretty.
Qed.

Lemma detail_gone_after_invalidation (product_id : Z) (cache : gmap string V) :
  product_id ≠ 0 →
  cache_utils.invalidate_product_cache (Some product_id) cache
    !! ("product_detail_" +:+ pretty product_id) = None.
Proof.
  intros Hid.
  destruct (cache_utils.invalidate_product_cache (Some product_id) cache
              !! ("product_detail_" +:+ pretty product_id)) as [v|] eqn:E; [|done].
  apply invalidate_product_cache_Some in E as (_ & _ & _ & _ & E).
  destruct (E (bool_decide_eq_true_2 _ Hid) product_id eq_refl) as [? _]. done.
Qed.

(** X2.  [invalidate_product_cache], called for one product or for none,
    leaves the cached detail of every other product where it was: the
    detail key of a product is neither one of the two keys deleted for
    another id nor matched by any of the three list patterns. *)
Theorem invalidate_product_cache_keeps_others
    (product_id : option Z) (other : Z) (cache : gmap string V)
    (Hother : product_id ≠ Some other) :
  cache_utils.get_cached_product other
    (cache_utils.invalidate_product_cache product_id cache)
  = cache_utils.get_cached_product other cache.
Proof.
  unfold cache_utils.get_cached_product, cache_utils.cache_get.
  by apply detail_kept_by_invalidation.
Qed.

(** X3.  After [invalidate_category_cache(id)], for an id other than 0,
    [get_cached_category(id)] misses, the [category_<id>] key is gone, and
    the cached detail of every other category is where it was.  Nothing is
    added to the cache. *)
Theorem invalidate_category_cache_targets
    (category_id other : Z) (cache : gmap string V) (Hid : category_id ≠ 0) :
  let cache' := cache_utils.invalidate_category_cache (Some category_id) cache in
  cache_utils.get_cached_category category_id cache' = None
  ∧ cache' !! ("category_" +:+ pretty category_id) = None
  ∧ (other ≠ category_id →
     cache_utils.get_cached_category other cache'
     = cache_utils.get_cached_category other cache)
  ∧ (∀ key value, cache' !! key = Some value → cache !! key = Some value).
Proof.
  intros cache'. subst cache'.
  unfold cache_utils.get_cached_category, cache_utils.cache_get,
    cache_utils.invalidate_category_cache, cache_utils.truthy,
    cache_utils.cache_delete.
  rewrite bool_decide_eq_true_2 by done.
  split_and!.
  - apply lookup_delete_pattern_None, lookup_delete_pattern_None,
      lookup_delete_pattern_None.
    rewrite lookup_delete_ne; [apply lookup_delete_eq|].
    intros E.
    change ("category_detail_" +:+ pretty category_id)
      with ("category_" +:+ ("detail_" +:+ pretty category_id)) in E.
    apply (inj (String.app "category_")) in E. revert E.
    by apply not_eq_sym, not_numeric_pretty.
  - apply lookup_delete_pattern_None, lookup_delete_pattern_None,
      lookup_delete_pattern_None, lookup_delete_eq.
  - intros Hne.
    destruct (category_detail_key_unmatched other) as (H1 & H2 & H3).
    rewrite !lookup_delete_pattern, H1, H2, H3.
    rewrite lookup_delete_ne.
    + apply lookup_delete_ne. intros E. apply detail_key_inj in E. congruence.
    + intros E.
      change ("category_detail_" +:+ pretty other)
        with ("category_" +:+ ("detail_" +:+ pretty other)) in E.
      apply (inj (String.app "category_")) in E.
      symmetry in E. revert E. by apply not_numeric_pretty.
  - intros key value H.
    apply lookup_delete_pattern_Some in H as [H _].
    apply lookup_delete_pattern_Some in H as [H _].
    apply lookup_delete_pattern_Some in H as [H _].
    apply lookup_delete_Some in H as [_ H].
    by apply lookup_delete_Some in H as [_ H].
Qed.

(** X4.  After [invalidate_order_cache(order_id, user_id)], for ids other
    than 0, the keys [order_detail_<id>], [order_<id>] and
    [user_orders_<user>] are gone, and so is every key that one of the
    patterns [*user_<user>_orders*], [*orders_list*], [*order_list*]
    matches.  Nothing is added to the cache. *)
Theorem invalidate_order_cache_deletes
    (order_id user_id : Z) (cache : gmap string V)
    (Horder : order_id ≠ 0) (Huser : user_id ≠ 0) :
  let cache' :=
    cache_utils.invalidate_order_cache (Some order_id) (Some user_id) cache in
  cache' !! ("order_detail_" +:+ pretty order_id) = None
  ∧ cache' !! ("order_" +:+ pretty order_id) = None
  ∧ cache' !! ("user_orders_" +:+ pretty user_id) = None
  ∧ (∀ key,
       cache_utils.glob_match ("*user_" +:+ pretty user_id +:+ "_orders*") key
       || cache_utils.glob_match "*orders_list*" key
       || cache_utils.glob_match "*order_list*" key = true →
       cache' !! key = None)
  ∧ (∀ key value, cache' !! key = Some value → cache !! key = Some value).
Proof.
  intros cache'.
  assert (Hsome : ∀ key value, cache' !! key = Some value →
    cache !! key = Some value
    ∧ key ≠ "order_detail_" +:+ pretty order_id
    ∧ key ≠ "order_" +:+ pretty order_id
    ∧ key ≠ "user_orders_" +:+ pretty user_id
    ∧ cache_utils.glob_match ("*user_" +:+ pretty user_id +:+ "_orders*") key
      = false
    ∧ cache_utils.glob_match "*orders_list*" key = false
    ∧ cache_utils.glob_match "*order_list*" key = false).
  { intros key value. subst cache'.
    unfold cache_utils.invalidate_order_cache, cache_utils.truthy,
      cache_utils.cache_delete.
    rewrite !bool_decide_eq_true_2 by done. intros H.
    apply lookup_delete_pattern_Some in H as [H H6].
    apply lookup_delete_pattern_Some in H as [H H5].
    apply lookup_delete_pattern_Some in H as [H H4].
    apply lookup_delete_Some in H as [H3 H].
    apply lookup_delete_Some in H as [H2 H].
    apply lookup_delete_Some in H as [H1 H].
    done. }
  assert (Hgone : ∀ key,
    (∀ value, cache' !! key = Some value → False) → cache' !! key = None).
  { intros key H. destruct (cache' !! key) as [v|] eqn:E; [|done].
    by destruct (H v). }
  split_and!.
  - apply Hgone. intros v Hv. by apply Hsome in Hv as (_ & ? & _).
  - apply Hgone. intros v Hv. by apply Hsome in Hv as (_ & _ & ? & _).
  - apply Hgone. intros v Hv. by apply Hsome in Hv as (_ & _ & _ & ? & _).
  - intros key Hkey. apply Hgone. intros v Hv.
    apply Hsome in Hv as (_ & _ & _ & _ & E1 & E2 & E3).
    by rewrite E1, E2, E3 in Hkey.
  - intros key value Hv. by apply Hsome in Hv as (? & _).
Qed.
End cache_more_facts.

Lemma invalidate_product_cache_keeps_others_witness :
  cache_utils.get_cached_product 2
    (cache_utils.invalidate_product_cache (Some 1)
       (cache_utils.set_cached_product sample.product_a
          (cache_utils.set_cached_product sample.product_b ∅)))
  = Some sample.product_b.
Proof.
  rewrite (invalidate_product_cache_keeps_others (Some 1) 2);
    [|discriminate].
  vm_compute. reflexivity.
Defined.

Lemma invalidate_category_cache_targets_witness :
  cache_utils.get_cached_category 3
    (cache_utils.invalidate_category_cache (Some 3)
       (cache_utils.set_cached_category (Category.mk 3 "Books" "Printed") ∅))
  = None.
Proof.
  refine (proj1 (invalidate_category_cache_targets 3 4 _ _)).
  vm_compute. discriminate.
Defined.

Lemma invalidate_order_cache_deletes_witness :
  cache_utils.invalidate_order_cache (Some 5) (Some 7)
    (<["user_orders_7" := sample.order_in "pending"]> ∅)
  !! "user_orders_7" = None.
Proof.
  refine (proj1 (proj2 (proj2 (invalidate_order_cache_deletes 5 7 _ _ _))));
    vm_compute; discriminate.
Defined.

(** ** Hashed cache keys and the list caches *)

(** A pattern matches no key that lacks one of its literal characters. *)
Lemma glob_char_absent (c : Ascii.ascii) (pattern key : string) :
  c ≠ cache_utils.star →
  string_forall (λ c', negb (bool_decide (c' = c))) pattern = false →
  string_forall (λ c', negb (bool_decide (c' = c))) key = true →
  cache_utils.glob_match pattern key = false.
Proof.
  intros Hc. revert key.
  induction pattern as [|a pattern IH]; intros key Hp Hkey; [done|].
  simpl in Hp.
  destruct (decide (a = cache_utils.star)) as [->|Ha].
  - rewrite bool_decide_eq_false_2 in Hp by congruence. simpl in Hp.
    induction key as [|b key IHkey].
    + rewrite glob_star_nil. by apply IH.
    + simpl in Hkey. apply andb_true_iff in Hkey as [Hb Hkey].
      rewrite glob_star_cons, IHkey by done. rewrite orb_false_r.
      apply IH; [done|]. simpl. by rewrite Hb, Hkey.
  - simpl. rewrite (bool_decide_eq_false_2 (a = cache_utils.star)) by done.
    destruct key as [|b key]; [done|].
    simpl in Hkey. apply andb_true_iff in Hkey as [Hb Hkey].
    destruct (decide (a = c)) as [->|Hac].
    + apply negb_true_iff, bool_decide_eq_false in Hb.
      rewrite bool_decide_eq_false_2; [done|congruence].
    + rewrite (bool_decide_eq_false_2 (a = c)) in Hp by done. simpl in Hp.
      rewrite IH by done. apply andb_false_r.
Qed.

Lemma hex_without (c : Ascii.ascii) (s : string) :
  is_hex c = false →
  string_forall is_hex s = true →
  string_forall (λ c', negb (bool_decide (c' = c))) s = true.
Proof.
  intros Hc. apply string_forall_impl. intros c' Hc'.
  apply negb_true_iff, bool_decide_eq_false. congruence.
Qed.

Lemma hex_key_unmatched (key pattern : string) (c : Ascii.ascii) :
  string_forall is_hex key = true →
  c ≠ cache_utils.star → is_hex c = false →
  string_forall (λ c', negb (bool_decide (c' = c))) pattern = false →
  cache_utils.glob_match pattern key = false.
Proof.
  intros Hkey Hstar Hc Hp. apply (glob_char_absent c); [done..|].
  by apply hex_without.
Qed.

Lemma hex_key_ne (key prefix rest : string) :
  string_forall is_hex key = true →
  string_forall is_hex prefix = false →
  key ≠ prefix +:+ rest.
Proof.
  intros Hkey Hp E. rewrite E, string_forall_app, Hp in Hkey. done.
Qed.

(** What [cache_product_list] and [cache_category_list] do with a cache,
    whatever the rows are: [fetch key rows cache]. *)
Lemma list_cache_outlives {V} (key : string) (first later : V)
    (invalidate : gmap string V → gmap string V) (cache : gmap string V) :
  (∀ c value, c !! key = Some value → invalidate c !! key = Some value) →
  let fetch rows c :=
    match cache_utils.cache_get key c with
    | Some cached_data => (c, cached_data)
    | None => (cache_utils.cache_set key rows c, rows)
    end in
  let run1 := fetch first cache in
  let cache2 := invalidate run1.1 in
  let run2 := fetch later cache2 in
  (cache !! key = None → run1.2 = first) ∧ run2.2 = run1.2 ∧ run2.1 = cache2.
Proof.
  intros Hinv fetch run1 cache2 run2.
  assert (Hstored : run1.1 !! key = Some run1.2).
  { subst run1 fetch. unfold cache_utils.cache_get, cache_utils.cache_set.
    destruct (cache !! key) as [data|] eqn:E; simpl; [done|].
    apply lookup_insert_eq. }
  assert (Hkept : cache2 !! key = Some run1.2) by by apply Hinv.
  subst run2 fetch. unfold cache_utils.cache_get in *. simpl.
  rewrite Hkept. split_and!; [|done..].
  intros Hmiss. subst run1. simpl. by rewrite Hmiss.
Qed.

Section hashed_facts.
Context (md5_hexdigest : string → string).
Context (Hhex : ∀ text, string_forall is_hex (md5_hexdigest text) = true).

(** X5.  [cache_product_list] returns what is cached under its hashed key
    and stores the rows of the queryset only on a miss.  The entry is out
    of reach of [invalidate_product_cache]: the key is a hexadecimal
    digest, which none of the patterns matches and which is no detail key.
    So after a first call, whatever product is invalidated and whatever
    queryset a later call brings, the later call returns the list of the
    first and stores nothing.  The same holds of [cache_category_list] and
    [invalidate_category_cache]. *)
Theorem cached_list_outlives_invalidation
    (first later : list Product.t) (first_c later_c : list Category.t)
    (timeout : Z) (id : option Z)
    (cache : gmap string (list Product.t))
    (cache_c : gmap string (list Category.t)) :
  (let run1 := cache_utils.cache_product_list md5_hexdigest first timeout cache in
   let cache2 := cache_utils.invalidate_product_cache id run1.1 in
   let run2 := cache_utils.cache_product_list md5_hexdigest later timeout cache2 in
   (cache !! cache_utils.get_cache_key md5_hexdigest "products_list" []
               [("timeout", pretty timeout)] = None → run1.2 = first)
   ∧ run2.2 = run1.2 ∧ run2.1 = cache2)
  ∧ (let run1 :=
       cache_utils.cache_category_list md5_hexdigest first_c timeout cache_c in
     let cache2 := cache_utils.invalidate_category_cache id run1.1 in
     let run2 :=
       cache_utils.cache_category_list md5_hexdigest later_c timeout cache2 in
     (cache_c !! cache_utils.get_cache_key md5_hexdigest "categories_list" []
                   [("timeout", pretty timeout)] = None → run1.2 = first_c)
     ∧ run2.2 = run1.2 ∧ run2.1 = cache2).
Proof.
  split.
  - apply (list_cache_outlives
             (cache_utils.get_cache_key md5_hexdigest "products_list" []
                [("timeout", pretty timeout)])).
    intros c value Hc.
    pose proof (Hhex (cache_utils.join "|"
                        ["products_list"; "timeout:" +:+ pretty timeout])) as Hkey.
    change (md5_hexdigest _)
      with (cache_utils.get_cache_key md5_hexdigest "products_list" []
              [("timeout", pretty timeout)]) in Hkey.
    unfold cache_utils.invalidate_product_cache.
    rewrite !lookup_delete_pattern.
    rewrite !(hex_key_unmatched _ _ (Ascii.ascii_of_nat 112)) by done.
    destruct id as [n|]; [|done].
    destruct (cache_utils.truthy (Some n)); [|done].
    unfold cache_utils.cache_delete.
    rewrite !lookup_delete_ne; [done|..]; apply not_eq_sym;
      by apply hex_key_ne.
  - apply (list_cache_outlives
             (cache_utils.get_cache_key md5_hexdigest "categories_list" []
                [("timeout", pretty timeout)])).
    intros c value Hc.
    pose proof (Hhex (cache_utils.join "|"
                        ["categories_list"; "timeout:" +:+ pretty timeout])) as Hkey.
    change (md5_hexdigest _)
      with (cache_utils.get_cache_key md5_hexdigest "categories_list" []
              [("timeout", pretty timeout)]) in Hkey.
    unfold cache_utils.invalidate_category_cache.
    rewrite !lookup_delete_pattern.
    rewrite !(hex_key_unmatched _ _ (Ascii.ascii_of_nat 116)) by done.
    destruct id as [n|]; [|done].
    destruct (cache_utils.truthy (Some n)); [|done].
    unfold cache_utils.cache_delete.
    rewrite !lookup_delete_ne; [done|..]; apply not_eq_sym;
      by apply hex_key_ne.
Qed.
End hashed_facts.

Lemma sample_digest_hex (text : string) :
  string_forall is_hex (sample_digest text) = true.
Proof. unfold sample_digest. by case_bool_decide. Qed.

Lemma cached_list_outlives_invalidation_witness :
  (cache_utils.cache_product_list sample_digest [sample.product_b] 3600
     (cache_utils.invalidate_product_cache (Some 1)
        (cache_utils.cache_product_list sample_digest [sample.product_a] 3600 ∅).1)).2
  = [sample.product_a].
Proof.
  destruct (proj1 (cached_list_outlives_invalidation sample_digest
                     sample_digest_hex [sample.product_a] [sample.product_b]
                     [] [] 3600 (Some 1) ∅ ∅)) as (Hfirst & Hlater & _).
  rewrite Hlater. apply Hfirst. apply lookup_empty.
Defined.

(** The order on keyword arguments that [sorted] uses here. *)
Lemma by_name_total : Total (λ a b : string * string, String.le a.1 b.1).
Proof. intros a b. apply (total String.le). Qed.

Lemma by_name_transitive :
  Transitive (λ a b : string * string, String.le a.1 b.1).
Proof. intros a b c. apply (transitivity (R := String.le)). Qed.

(** X6.  [get_cache_key] does not depend on the order in which the keyword
    arguments are given: they are sorted by name, and their names are
    different. *)
Theorem get_cache_key_sorts_kwargs
    (md5_hexdigest : string → string) (prefix : string) (args : list string)
    (kwargs kwargs' : list (string * string))
    (Hnames : NoDup kwargs.*1) (Hperm : kwargs ≡ₚ kwargs') :
  cache_utils.get_cache_key md5_hexdigest prefix args kwargs
  = cache_utils.get_cache_key md5_hexdigest prefix args kwargs'.
Proof.
  unfold cache_utils.get_cache_key.
  pose proof by_name_total. pose proof by_name_transitive.
  cut (merge_sort (λ a b : string * string, String.le a.1 b.1) kwargs
       = merge_sort (λ a b : string * string, String.le a.1 b.1) kwargs').
  { by intros ->. }
  apply (Sorted_unique_strong (λ a b : string * string, String.le a.1 b.1)).
  - intros [k1 v1] [k2 v2] H1 H2 Hle Hge. simpl in *.
    assert (k1 = k2) as -> by by apply (anti_symm String.le).
    f_equal. rewrite merge_sort_Permutation in H1, H2. rewrite <- Hperm in H2.
    apply list_elem_of_lookup in H1 as [i Hi], H2 as [j Hj].
    assert (i = j) as ->.
    { apply (NoDup_lookup (kwargs.*1) i j k2); [exact Hnames|..].
      - by rewrite list_lookup_fmap, Hi.
      - by rewrite list_lookup_fmap, Hj. }
    congruence.
  - apply Sorted_merge_sort, _.
  - apply Sorted_merge_sort, _.
  - by rewrite !merge_sort_Permutation.
Qed.

Lemma get_cache_key_sorts_kwargs_witness :
  cache_utils.get_cache_key sample_digest "products_list" ["2"]
    [("timeout", "3600"); ("page", "1")]
  = cache_utils.get_cache_key sample_digest "products_list" ["2"]
      [("page", "1"); ("timeout", "3600")].
Proof.
  apply get_cache_key_sorts_kwargs.
  - apply (bool_decide_unpack _). vm_compute. exact I.
  - apply Permutation_swap.
Defined.

(** ** Stock updates and product deletion, with the cache *)

Lemma table_get_delete {A} (key : A → Z) (k gone : Z) (tb : Table A) :
  table_get key k (table_delete (λ r, bool_decide (key r = gone)) tb)
  = if bool_decide (k = gone) then None else table_get key k tb.
Proof.
  unfold table_get, table_delete. simpl.
  induction (rows tb) as [|r l IH]; [by case_bool_decide|].
  rewrite filter_cons. simpl.
  destruct (decide (key r = gone)) as [E|E].
  - rewrite (bool_decide_eq_true_2 _ E).
    rewrite decide_False by done. rewrite IH.
    case_bool_decide as Hk; [done|].
    rewrite bool_decide_eq_false_2; [done|congruence].
  - rewrite (bool_decide_eq_false_2 _ E). rewrite decide_True by done.
    simpl. rewrite IH.
    case_bool_decide as Hr; [|done].
    rewrite bool_decide_eq_false_2; [done|congruence].
Qed.

(** X7.  [ProductStockUpdateView.patch]: a missing product is answered 404
    and an absent or negative stock 400, with the database and the cache
    as they were.  A stock of at least 0 is stored: the product then has
    that stock and no other product changes, the cached detail of the
    product is gone (for a key other than 0) while those of the other
    products stay, and no stock is negative afterwards if none was. *)
Theorem stock_update_writes_and_invalidates
    {V} (pk : Z) (stock : option Z) (db : DB) (cache : gmap string V) :
  let out := catalog.ProductStockUpdateView_patch pk stock db cache in
  (models.Product_objects_get pk db = None →
   out = (db, cache,
          catalog.StockRefused
            (mkResponse HTTP_404_NOT_FOUND (ErrorBody "Product not found"))))
  ∧ (∀ p, models.Product_objects_get pk db = Some p →
       stock = None ∨ (∃ v, stock = Some v ∧ v < 0) →
       ∃ errors,
         out = (db, cache,
                catalog.StockRefused
                  (mkResponse HTTP_400_BAD_REQUEST (SerializerErrors errors))))
  ∧ (∀ p v, models.Product_objects_get pk db = Some p →
       stock = Some v → 0 ≤ v →
       out.2 = catalog.StockUpdated HTTP_200_OK "Stock updated successfully"
                 (Product.with_stock v p)
       ∧ models.Product_objects_get pk out.1.1 = Some (Product.with_stock v p)
       ∧ (∀ other, other ≠ pk →
            models.Product_objects_get other out.1.1
            = models.Product_objects_get other db)
       ∧ (pk ≠ 0 → cache_utils.get_cached_product pk out.1.2 = None)
       ∧ (∀ other, other ≠ pk →
            cache_utils.get_cached_product other out.1.2
            = cache_utils.get_cached_product other cache)
       ∧ (stock_nonneg db → stock_nonneg out.1.1)).
Proof.
  intros out. subst out. unfold catalog.ProductStockUpdateView_patch.
  split_and!.
  - by intros ->.
  - intros p -> [->|(v & -> & Hv)]; simpl; [by eexists|].
    rewrite bool_decide_eq_true_2 by done. by eexists.
  - intros p v Hp -> Hv. rewrite Hp. simpl.
    rewrite !bool_decide_eq_false_2 by lia. simpl.
    pose proof (table_get_key _ _ _ _ Hp) as Hid.
    split_and!.
    + done.
    + unfold models.Product_objects_get. simpl.
      by eapply table_get_update_eq.
    + intros other Hne. unfold models.Product_objects_get. simpl.
      apply table_get_update_ne. simpl. congruence.
    + intros Hpk. rewrite Hid. by apply detail_gone_after_invalidation.
    + intros other Hne. rewrite Hid.
      apply detail_kept_by_invalidation. congruence.
    + intros Hnn q Hq.
      apply (elem_of_table_update Product.id (Product.with_stock v p)
               (products db) q) in Hq as [->|Hq]; [done|by apply Hnn].
Qed.

Lemma stock_update_writes_and_invalidates_witness :
  let out :=
    catalog.ProductStockUpdateView_patch 1 (Some 9) (sample.db_cart [])
      (cache_utils.set_cached_product sample.product_a ∅) in
  models.Product_objects_get 1 out.1.1 = Some (Product.mk 1 "Product A" 2000 9 true)
  ∧ cache_utils.get_cached_product 1 out.1.2 = None.
Proof.
  intros out.
  destruct (proj2 (proj2 (stock_update_writes_and_invalidates 1 (Some 9)
              (sample.db_cart [])
              (cache_utils.set_cached_product sample.product_a ∅)))
              sample.product_a 9 eq_refl eq_refl)
    as (_ & Hstored & _ & Hgone & _).
  - vm_compute. discriminate.
  - split; [exact Hstored|]. apply Hgone. discriminate.
Defined.

Lemma elem_of_table_delete {A} (doomed : A → bool) (tb : Table A) (r : A) :
  r ∈ rows (table_delete doomed tb) ↔ doomed r = false ∧ r ∈ rows tb.
Proof.
  unfold table_delete. simpl.
  apply (list_elem_of_filter (λ r, doomed r = false)).
Qed.

(** X8.  [ProductDetailView.perform_destroy]: the product is gone from the
    database and its detail from the cache (for a key other than 0); the
    cart items and the order items that referred to it are gone with it,
    so that every remaining item still refers to a product if every item
    did; the other products and the orders, with their stored totals, are
    as they were. *)
Theorem product_destroy_cascades
    {V} (instance : Product.t) (db : DB) (cache : gmap string V) :
  let out := catalog.ProductDetailView_perform_destroy instance db cache in
  models.Product_objects_get (Product.id instance) out.1 = None
  ∧ (Product.id instance ≠ 0 →
     cache_utils.get_cached_product (Product.id instance) out.2 = None)
  ∧ (∀ item, item ∈ rows (cart_items out.1) →
       CartItem.product item ≠ Product.id instance ∧ item ∈ rows (cart_items db))
  ∧ (∀ item, item ∈ rows (order_items out.1) →
       OrderItem.product item ≠ Product.id instance
       ∧ item ∈ rows (order_items db))
  ∧ (∀ key, key ≠ Product.id instance →
       models.Product_objects_get key out.1 = models.Product_objects_get key db)
  ∧ orders out.1 = orders db
  ∧ (items_refer_to_products db → items_refer_to_products out.1).
Proof.
  intros out. subst out. unfold catalog.ProductDetailView_perform_destroy. simpl.
  assert (Hget : ∀ key,
    models.Product_objects_get key (models.Product_delete instance db)
    = if bool_decide (key = Product.id instance) then None
      else models.Product_objects_get key db).
  { intros key. unfold models.Product_objects_get, models.Product_delete. simpl.
    apply table_get_delete. }
  assert (Hcart : ∀ item,
    item ∈ rows (cart_items (models.Product_delete instance db)) →
    CartItem.product item ≠ Product.id instance ∧ item ∈ rows (cart_items db)).
  { intros item Hin. unfold models.Product_delete in Hin. simpl in Hin.
    apply elem_of_table_delete in Hin as [Hp Hin].
    by apply bool_decide_eq_false in Hp. }
  assert (Horder : ∀ item,
    item ∈ rows (order_items (models.Product_delete instance db)) →
    OrderItem.product item ≠ Product.id instance ∧ item ∈ rows (order_items db)).
  { intros item Hin. unfold models.Product_delete in Hin. simpl in Hin.
    apply elem_of_table_delete in Hin as [Hp Hin].
    by apply bool_decide_eq_false in Hp. }
  split_and!; try done.
  - rewrite Hget. by rewrite bool_decide_eq_true_2.
  - intros Hid. by apply detail_gone_after_invalidation.
  - intros key Hne. rewrite Hget. by rewrite bool_decide_eq_false_2.
  - intros [Hci Hoi]. split.
    + intros item Hin. apply Hcart in Hin as [Hne Hin].
      rewrite Hget, bool_decide_eq_false_2 by done. by apply Hci.
    + intros item Hin. apply Horder in Hin as [Hne Hin].
      rewrite Hget, bool_decide_eq_false_2 by done. by apply Hoi.
Qed.

Lemma product_destroy_cascades_witness :
  let db := sample.db_cart [CartItem.mk 1 1 1 2; CartItem.mk 2 1 2 1] in
  let out :=
    catalog.ProductDetailView_perform_destroy sample.product_b db
      (cache_utils.set_cached_product sample.product_b ∅) in
  cache_utils.get_cached_product 2 out.2 = None
  ∧ items_refer_to_products out.1.
Proof.
  intros db out.
  destruct (product_destroy_cascades sample.product_b db
              (cache_utils.set_cached_product sample.product_b ∅))
    as (_ & Hgone & _ & _ & _ & _ & Hrefer).
  split.
  - apply Hgone. vm_compute. discriminate.
  - apply Hrefer. split.
    + intros item Hin. vm_compute in Hin.
      apply list_elem_of_In in Hin. simpl in Hin.
      destruct Hin as [<-|[<-|[]]]; vm_compute; eauto.
    + intros item Hin. vm_compute in Hin. by apply elem_of_nil in Hin.
Defined.

(** ** Carts: creation on first access, clearing, removal, ownership *)

Lemma find_snoc_fresh {A} (P : A → bool) (l : list A) (x : A) :
  find P l = None → P x = true → find P (l ++ [x]) = Some x.
Proof.
  intros Hl Hx. induction l as [|a l IH]; simpl in *; [by rewrite Hx|].
  destruct (P a); [done|]. by apply IH.
Qed.

(** X9.  [Cart.objects.get_or_create(user=...)], as [CartView.get_object]
    and the cart views call it: the cart returned is the user's; a second
    call returns the same cart and writes nothing; the items, products
    and orders are untouched; and if no two carts had the same user
    before, none have after. *)
Theorem cart_get_or_create_once (user : User.t) (db : DB) :
  let first := views.Cart_objects_get_or_create user db in
  Cart.user first.2 = User.id user
  ∧ views.Cart_objects_get user first.1 = Some first.2
  ∧ views.Cart_objects_get_or_create user first.1 = first
  ∧ cart_items first.1 = cart_items db
  ∧ products first.1 = products db
  ∧ orders first.1 = orders db
  ∧ (NoDup (Cart.user <$> rows (carts db)) →
     NoDup (Cart.user <$> rows (carts first.1))).
Proof.
  intros first. subst first.
  unfold views.Cart_objects_get_or_create.
  destruct (views.Cart_objects_get user db) as [cart|] eqn:Hget; simpl.
  - split_and!; try done.
    + unfold views.Cart_objects_get in Hget.
      apply find_some in Hget as [_ H]. by apply bool_decide_eq_true in H.
    + by rewrite Hget.
  - assert (Hnone : ∀ c, c ∈ rows (carts db) → Cart.user c ≠ User.id user).
    { intros c Hc E. unfold views.Cart_objects_get in Hget.
      eapply find_none in Hget; [|by apply list_elem_of_In].
      simpl in Hget. by rewrite bool_decide_eq_true_2 in Hget. }
    assert (Hfound :
      views.Cart_objects_get user
        (with_carts
           {| rows := rows (carts db) ++ [Cart.mk (next_id (carts db)) (User.id user)];
              next_id := next_id (carts db) + 1 |} db)
      = Some (Cart.mk (next_id (carts db)) (User.id user))).
    { unfold views.Cart_objects_get in *. simpl.
      apply find_snoc_fresh; [done|]. simpl. by apply bool_decide_eq_true_2. }
    split_and!; try done.
    + by rewrite Hfound.
    + intros Hnd. rewrite fmap_app. simpl.
      apply NoDup_app. split_and!; [done| |apply NoDup_singleton].
      intros u Hu Hu'. apply list_elem_of_singleton in Hu' as ->.
      apply list_elem_of_fmap in Hu as (c & Hc & Hin). by apply (Hnone c).
Qed.

Lemma cart_get_or_create_once_witness :
  NoDup (Cart.user <$>
           rows (carts (views.Cart_objects_get_or_create sample.bob
                          (sample.db_cart [])).1)).
Proof.
  apply (cart_get_or_create_once sample.bob (sample.db_cart [])).
  apply (bool_decide_unpack _). vm_compute. exact I.
Defined.

(** X10.  [ClearCartView.delete]: the answer is 200 with the cart and no
    items; the cart of the user has no items afterwards, the items of
    every other cart are as they were, and so are the products, the orders
    and the order items. *)
Theorem clear_cart_empties_own_cart (user : User.t) (w : World) :
  let out := views.ClearCartView_delete user w in
  let cart := (views.Cart_objects_get_or_create user (w_db w)).2 in
  out.2 = Ok (mkResponse HTTP_200_OK (CartBody "Cart cleared successfully" cart []))
  ∧ models.Cart_items cart (w_db out.1) = []
  ∧ (∀ other, Cart.id other ≠ Cart.id cart →
       models.Cart_items other (w_db out.1) = models.Cart_items other (w_db w))
  ∧ products (w_db out.1) = products (w_db w)
  ∧ orders (w_db out.1) = orders (w_db w)
  ∧ order_items (w_db out.1) = order_items (w_db w).
Proof.
  intros out cart.
  destruct (get_or_create_cart_keeps user (w_db w)) as (Hp & Hci & Ho & Hoi).
  set (db0 := (views.Cart_objects_get_or_create user (w_db w)).1) in *.
  set (w0 := with_db (λ _, db0) w).
  set (w1 := with_db (λ _, models.Cart_clear cart db0) w0).
  assert (Hout : out =
    (w1, Ok (mkResponse HTTP_200_OK
               (CartBody "Cart cleared successfully" cart
                  (models.Cart_items cart (models.Cart_clear cart db0)))))).
  { subst out. unfold views.ClearCartView_delete.
    rewrite (bind_run _ _ w w0 cart).
    2:{ unfold lift_db. subst w0 db0 cart.
        by destruct (views.Cart_objects_get_or_create user (w_db w)). }
    by rewrite (bind_run _ _ w0 w1 tt) by reflexivity. }
  rewrite Hout. simpl. rewrite Cart_items_after_clear.
  split_and!; try done.
  intros other Hne. rewrite Cart_items_after_clear_other by done.
  unfold models.Cart_items. by rewrite Hci.
Qed.

Lemma CartItem_objects_get_own_foreign item_id user db :
  (∀ item c, item ∈ rows (cart_items db) → CartItem.id item = item_id →
             c ∈ rows (carts db) → Cart.id c = CartItem.cart item →
             Cart.user c ≠ User.id user) →
  views.CartItem_objects_get_own item_id user db = None.
Proof.
  intros Hforeign. unfold views.CartItem_objects_get_own.
  destruct (find _ _) as [item|] eqn:Hfind; [|done].
  apply find_some in Hfind as [Hin Htest].
  apply andb_true_iff in Htest as [Hid Hcart].
  apply bool_decide_eq_true in Hid, Hcart.
  apply Exists_exists in Hcart as (c & Hc & Hcid & Hcuser).
  destruct (Hforeign item c); try done. by apply list_elem_of_In.
Qed.

(** X11.  A cart item is only reached through a cart of the requesting
    user: when every item with the requested id lies in carts of other
    users (or there is none), [UpdateCartItemView.patch] and
    [RemoveFromCartView.delete] both answer 404 "Cart item not found" and
    leave the world as it was. *)
Theorem foreign_cart_item_is_not_found
    (user : User.t) (item_id : Z) (quantity : option Z) (w : World)
    (Hforeign : ∀ item c,
       item ∈ rows (cart_items (w_db w)) → CartItem.id item = item_id →
       c ∈ rows (carts (w_db w)) → Cart.id c = CartItem.cart item →
       Cart.user c ≠ User.id user) :
  views.UpdateCartItemView_patch user item_id quantity w
    = (w, Ok (mkResponse HTTP_404_NOT_FOUND (ErrorBody "Cart item not found")))
  ∧ views.RemoveFromCartView_delete user item_id w
    = (w, Ok (mkResponse HTTP_404_NOT_FOUND (ErrorBody "Cart item not found"))).
Proof.
  pose proof (CartItem_objects_get_own_foreign item_id user (w_db w) Hforeign)
    as Hnone.
  split.
  - unfold views.UpdateCartItemView_patch.
    rewrite (bind_run _ _ w w (w_db w)) by reflexivity. by rewrite Hnone.
  - unfold views.RemoveFromCartView_delete.
    rewrite (bind_run _ _ w w (w_db w)) by reflexivity. by rewrite Hnone.
Qed.

(** Bob asks for the line of alice's cart. *)
Lemma foreign_cart_item_is_not_found_witness :
  let w := sample.world sample.online (sample.db_cart [CartItem.mk 1 1 1 2]) in
  views.RemoveFromCartView_delete sample.bob 1 w
  = (w, Ok (mkResponse 404 (ErrorBody "Cart item not found"))).
Proof.
  intros w.
  refine (proj2 (foreign_cart_item_is_not_found sample.bob 1 None w _)).
  intros item c Hitem Hid Hc Hcart.
  vm_compute in Hc. apply list_elem_of_singleton in Hc as ->.
  vm_compute. discriminate.
Defined.

Lemma clear_cart_empties_own_cart_witness :
  let w := sample.world sample.online sample.db_race in
  let out := views.ClearCartView_delete sample.alice w in
  models.Cart_items (Cart.mk 1 7) (w_db out.1) = []
  ∧ models.Cart_items (Cart.mk 2 8) (w_db out.1) = [CartItem.mk 2 2 1 1].
Proof.
  intros w out. subst out.
  destruct (clear_cart_empties_own_cart sample.alice w)
    as (_ & Hown & Hother & _).
  split; [exact Hown|].
  rewrite (Hother (Cart.mk 2 8)); [reflexivity|]. vm_compute. discriminate.
Defined.

Lemma table_get_exists {A} (key : A → Z) (k : Z) (tb : Table A)
    (also : A → Prop) :
  Exists (λ r, key r = k ∧ also r) (rows tb) → is_Some (table_get key k tb).
Proof.
  intros Hex. apply Exists_exists in Hex as (r & Hin & Hk & _).
  unfold table_get. destruct (find _ _) eqn:Hfind; [done|].
  eapply find_none in Hfind; [|by apply list_elem_of_In].
  simpl in Hfind. by rewrite bool_decide_eq_true_2 in Hfind.
Qed.

(** X12.  [RemoveFromCartView.delete] of an item of the requesting user:
    the answer is 200 with a cart; the cart items afterwards are those
    whose key is not the requested one, in their order; the item can no
    longer be fetched; products and orders are untouched. *)
Theorem remove_own_cart_item
    (user : User.t) (item_id : Z) (item : CartItem.t) (w : World)
    (Hown : views.CartItem_objects_get_own item_id user (w_db w) = Some item) :
  let out := views.RemoveFromCartView_delete user item_id w in
  (∃ cart,
     Cart.id cart = CartItem.cart item
     ∧ out.2 = Ok (mkResponse HTTP_200_OK
                     (CartBody "Item removed from cart successfully" cart
                        (models.Cart_items cart (w_db out.1)))))
  ∧ rows (cart_items (w_db out.1))
    = filter (λ r, CartItem.id r ≠ item_id) (rows (cart_items (w_db w)))
  ∧ views.CartItem_objects_get_own item_id user (w_db out.1) = None
  ∧ products (w_db out.1) = products (w_db w)
  ∧ orders (w_db out.1) = orders (w_db w).
Proof.
  intros out.
  assert (Hitem : CartItem.id item = item_id
                  ∧ is_Some (table_get Cart.id (CartItem.cart item)
                               (carts (w_db w)))).
  { unfold views.CartItem_objects_get_own in Hown.
    apply find_some in Hown as [_ Htest].
    apply andb_true_iff in Htest as [Hid Hcart].
    apply bool_decide_eq_true in Hid, Hcart. split; [done|].
    exact (table_get_exists Cart.id (CartItem.cart item) (carts (w_db w))
             (λ c, Cart.user c = User.id user) Hcart). }
  destruct Hitem as [Hid [cart Hcart]].
  set (db1 := with_cart_items
                (table_delete
                   (λ r, bool_decide (CartItem.id r = CartItem.id item))
                   (cart_items (w_db w))) (w_db w)).
  assert (Hout : out =
    (with_db (λ _, db1) w,
     Ok (mkResponse HTTP_200_OK
           (CartBody "Item removed from cart successfully" cart
              (models.Cart_items cart db1))))).
  { subst out. unfold views.RemoveFromCartView_delete.
    rewrite (bind_run _ _ w w (w_db w)) by reflexivity. rewrite Hown.
    rewrite (bind_run _ _ w w cart).
    2:{ unfold views.CartItem_cart.
        rewrite (bind_run _ _ w w (w_db w)) by reflexivity. by rewrite Hcart. }
    by rewrite (bind_run _ _ w (with_db (λ _, db1) w) tt) by reflexivity. }
  assert (Hrows : rows (cart_items db1)
                  = filter (λ r, CartItem.id r ≠ item_id) (rows (cart_items (w_db w)))).
  { subst db1. simpl. apply list_filter_iff. intros r. rewrite Hid.
    split.
    - by intros H%bool_decide_eq_false.
    - intros H. by apply bool_decide_eq_false. }
  rewrite Hout. simpl. split_and!; try done.
  - exists cart. split; [|done]. by apply table_get_key in Hcart.
  - unfold views.CartItem_objects_get_own.
    change (rows (cart_items db1)) with (rows (cart_items db1)).
    destruct (find _ _) as [r|] eqn:Hfind; [|done].
    apply find_some in Hfind as [Hin Htest].
    apply andb_true_iff in Htest as [Hrid _].
    apply bool_decide_eq_true in Hrid.
    apply list_elem_of_In in Hin. rewrite Hrows in Hin.
    by apply list_elem_of_filter in Hin as [Hne _].
Qed.

Lemma remove_own_cart_item_witness :
  let w :=
    sample.world sample.online
      (sample.db_cart [CartItem.mk 1 1 1 2; CartItem.mk 2 1 2 1]) in
  rows (cart_items (w_db (views.RemoveFromCartView_delete sample.alice 1 w).1))
  = [CartItem.mk 2 1 2 1].
Proof.
  intros w.
  destruct (remove_own_cart_item sample.alice 1 (CartItem.mk 1 1 1 2) w eq_refl)
    as (_ & Hrows & _).
  rewrite Hrows. vm_compute. reflexivity.
Defined.

Lemma bind_result_ok {A B} (m : M A) (k : A → M B) w b :
  (bind m k w).2 = Ok b → ∃ w1 a, m w = (w1, Ok a) ∧ (k a w1).2 = Ok b.
Proof.
  unfold bind. destruct (m w) as [w1 [a|e]]; [|done]. intros H. by exists w1, a.
Qed.

Lemma AddToCart_is_valid_inr data db pid q :
  serializers.AddToCart_is_valid data db = inr (pid, q) →
  ∃ p, models.Product_objects_get pid db = Some p
       ∧ Product.is_active p = true ∧ 0 < Product.stock p.
Proof.
  unfold serializers.AddToCart_is_valid,
    serializers.AddToCart_field_product_id,
    serializers.AddToCart_validate_product_id.
  destruct (serializers.product_id data) as [value|];
    [|by destruct (serializers.AddToCart_field_quantity data db)].
  destruct (models.Product_objects_get value db) as [p|] eqn:Hp;
    [|by destruct (serializers.AddToCart_field_quantity data db)].
  destruct (Product.is_active p) eqn:Hactive;
    [|by destruct (serializers.AddToCart_field_quantity data db)].
  unfold Product.in_stock. case_bool_decide as Hstock;
    [|by destruct (serializers.AddToCart_field_quantity data db)].
  destruct (serializers.AddToCart_field_quantity data db); [done|].
  intros [= <- <-]. by exists p.
Qed.

(** X13.  [AddToCartView.post] never answers 404: the serializer has
    already refused, with 400, every product that is missing or inactive,
    so the view's own [Product.DoesNotExist] branch is not reached.  Every
    answer is 200 or 400. *)
Theorem add_to_cart_never_not_found
    (user : User.t) (data : serializers.AddToCartData) (w : World)
    (response : Response)
    (Hout : (views.AddToCartView_post user data w).2 = Ok response) :
  status_code response = HTTP_200_OK
  ∨ status_code response = HTTP_400_BAD_REQUEST.
Proof.
  revert Hout. unfold views.AddToCartView_post.
  rewrite (bind_run _ _ w w (w_db w)) by reflexivity.
  destruct (serializers.AddToCart_is_valid data (w_db w))
    as [errors|[pid q]] eqn:Hvalid.
  { intros [= <-]. by right. }
  apply AddToCart_is_valid_inr in Hvalid as (p & Hp & Hactive & Hstock).
  destruct (get_or_create_cart_keeps user (w_db w)) as (Hprod & _).
  set (db0 := (views.Cart_objects_get_or_create user (w_db w)).1) in *.
  set (cart := (views.Cart_objects_get_or_create user (w_db w)).2).
  set (w0 := with_db (λ _, db0) w).
  rewrite (bind_run _ _ w w0 cart).
  2:{ unfold lift_db. subst w0 db0 cart.
      by destruct (views.Cart_objects_get_or_create user (w_db w)). }
  rewrite (bind_run _ _ w0 w0 db0) by reflexivity.
  assert (Hp0 : models.Product_objects_get pid db0 = Some p).
  { unfold models.Product_objects_get. by rewrite Hprod. }
  rewrite Hp0, Hactive. simpl.
  case_bool_decide.
  { intros [= <-]. by right. }
  intros Hout.
  apply bind_result_ok in Hout as (w1 & got & _ & Hout).
  apply bind_result_ok in Hout as (w2 & [] & _ & Hout).
  unfold views.cart_response, bind, get_db, ret in Hout. simpl in Hout.
  injection Hout as <-. by left.
Qed.

Lemma add_to_cart_never_not_found_witness :
  status_code
    (mkResponse 400 (SerializerErrors [("product_id", "Product not found")]))
  = HTTP_200_OK
  ∨ status_code
      (mkResponse 400 (SerializerErrors [("product_id", "Product not found")]))
    = HTTP_400_BAD_REQUEST.
Proof.
  apply (add_to_cart_never_not_found sample.alice
           (serializers.mkAddToCartData (Some 9) None)
           (sample.world sample.online (sample.db_cart []))).
  vm_compute. reflexivity.
Defined.

(** ** The totals of a placed order *)


Lemma filter_none {A} (P : A → Prop) `{∀ x, Decision (P x)} (l : list A) :
  (∀ x, x ∈ l → ¬ P x) → filter P l = [].
Proof.
  induction l as [|x l IH]; intros Hl; [done|].
  rewrite filter_cons_False by (apply Hl; left).
  apply IH. intros y Hy. apply Hl. by right.
Qed.





(** ** Where the notifications go *)

Lemma sends_ret {A} P (a : A) : sends_only_to P (ret a).
Proof. intros w. exists []. split; [by rewrite app_nil_r|]. by intros ? ?%elem_of_nil. Qed.

Lemma sends_get_db P : sends_only_to P get_db.
Proof. intros w. exists []. split; [by rewrite app_nil_r|]. by intros ? ?%elem_of_nil. Qed.

Lemma sends_lift_db {A} P (f : DB → DB * A) : sends_only_to P (lift_db f).
Proof.
  intros w. exists []. unfold lift_db. destruct (f (w_db w)).
  split; [by rewrite app_nil_r|]. by intros ? ?%elem_of_nil.
Qed.

Lemma sends_get_or_raise {A} P (model : string) (o : option A) :
  sends_only_to P (get_or_raise model o).
Proof.
  intros w. exists []. destruct o; (split; [by rewrite app_nil_r|]);
    by intros ? ?%elem_of_nil.
Qed.

Lemma sends_now P : sends_only_to P datetime_now_isoformat.
Proof. intros w. exists []. split; [by rewrite app_nil_r|]. by intros ? ?%elem_of_nil. Qed.

Lemma sends_create_task (P : string → Prop) group event :
  P group → sends_only_to P (create_task group event).
Proof.
  intros HP w. unfold create_task.
  destruct (task_outcome (w_env w) (w_tasks w)); simpl.
  - exists []. split; [by rewrite app_nil_r|]. by intros ? ?%elem_of_nil.
  - exists []. split; [by rewrite app_nil_r|]. by intros ? ?%elem_of_nil.
  - exists [(group, event)]. split; [done|].
    by intros ? ->%list_elem_of_singleton.
Qed.

Lemma sends_bind {A B} P (m : M A) (k : A → M B) :
  sends_only_to P m → (∀ a, sends_only_to P (k a)) → sends_only_to P (bind m k).
Proof.
  intros Hm Hk w. unfold bind. destruct (Hm w) as (added & Hsent & Hadded).
  destruct (m w) as [w1 [a|e]]; simpl in *.
  - destruct (Hk a w1) as (added' & Hsent' & Hadded').
    exists (added ++ added'). split.
    + by rewrite Hsent', Hsent, app_assoc.
    + intros sent [?|?]%elem_of_app; auto.
  - by exists added.
Qed.

Lemma sends_bind_with {A B} P (Q : A → Prop) (m : M A) (k : A → M B) :
  sends_only_to P m → (∀ w a, (m w).2 = Ok a → Q a) →
  (∀ a, Q a → sends_only_to P (k a)) → sends_only_to P (bind m k).
Proof.
  intros Hm HQ Hk w. unfold bind. destruct (Hm w) as (added & Hsent & Hadded).
  specialize (HQ w).
  destruct (m w) as [w1 [a|e]]; simpl in *.
  - destruct (Hk a (HQ a eq_refl) w1) as (added' & Hsent' & Hadded').
    exists (added ++ added'). split.
    + by rewrite Hsent', Hsent, app_assoc.
    + intros sent [?|?]%elem_of_app; auto.
  - by exists added.
Qed.

Lemma sends_try_except {A} P (m : M A) (h : exn → M A) :
  sends_only_to P m → (∀ e, sends_only_to P (h e)) →
  sends_only_to P (try_except m h).
Proof.
  intros Hm Hh w. unfold try_except. destruct (Hm w) as (added & Hsent & Hadded).
  destruct (m w) as [w1 [a|e]]; simpl in *.
  - by exists added.
  - destruct (Hh e w1) as (added' & Hsent' & Hadded').
    exists (added ++ added'). split.
    + by rewrite Hsent', Hsent, app_assoc.
    + intros sent [?|?]%elem_of_app; auto.
Qed.

Lemma sends_for_each {A} P (xs : list A) (body : A → M unit) :
  (∀ x, sends_only_to P (body x)) → sends_only_to P (for_each xs body).
Proof.
  intros Hb. induction xs as [|x xs IH]; simpl.
  - apply sends_ret.
  - apply sends_bind; [apply Hb|by intros _].
Qed.

Lemma sends_sum_of {A} P (f : A → M Z) (xs : list A) (acc : Z) :
  (∀ x, sends_only_to P (f x)) → sends_only_to P (models.sum_of f xs acc).
Proof.
  intros Hf. revert acc. induction xs as [|x xs IH]; intros acc; simpl.
  - apply sends_ret.
  - apply sends_bind; [apply Hf|]. intros v. apply IH.
Qed.

Ltac sends_step :=
  first
    [ apply sends_ret | apply sends_get_db | apply sends_lift_db
    | apply sends_get_or_raise | apply sends_now
    | apply sends_create_task; auto
    | apply sends_try_except; [|intros ?]
    | apply sends_bind; [|intros ?]
    | apply sends_for_each; intros ?
    | apply sends_sum_of; intros ?
    | match goal with
      | |- sends_only_to _ (match ?x with _ => _ end) => destruct x
      | |- sends_only_to _ (if ?x then _ else _) => destruct x
      end ].

Lemma sends_validate_stock P items : sends_only_to P (views.validate_stock items).
Proof.
  induction items as [|item items IH]; simpl.
  - apply sends_ret.
  - apply sends_bind; [unfold models.CartItem_product; repeat sends_step|].
    intros product. destruct (bool_decide _); [apply sends_ret|apply IH].
Qed.

Lemma Order_update_status_result self new_status w order :
  (models.Order_update_status self new_status w).2 = Ok order →
  order = Order.with_status new_status self.
Proof.
  unfold models.Order_update_status. intros H.
  apply bind_result_ok in H as (w1 & [] & _ & H).
  apply bind_result_ok in H as (w2 & [] & _ & H).
  unfold ret in H. simpl in H. by injection H.
Qed.

Lemma admin_group_is_no_user_group (user_id : Z) :
  consumers.admin_group ≠ consumers.user_group user_id.
Proof. unfold consumers.admin_group, consumers.user_group. discriminate. Qed.

(** The groups a notification about an order of [owner] may go to: the
    group of the owner and the group of the administrators, and so the
    group of no other user. *)
Lemma owner_or_admin_group (owner : Z) (group : string) :
  group = consumers.user_group owner ∨ group = consumers.admin_group →
  ∀ other, other ≠ owner → group ≠ consumers.user_group other.
Proof.
  intros [->| ->] other Hother.
  - intros Heq. apply Hother. symmetry. by apply (detail_key_inj "user_").
  - apply admin_group_is_no_user_group.
Qed.

(** X15.  Whatever the fate of its tasks, a status update sends messages
    only about the order it was asked to update, and only to the group of
    the user who owns that order and to the group of the administrators:
    to the group of no other user. *)
Theorem status_update_notifies_owner_and_admins_only
    (order_id : Z) (status : option string) (w : World) :
  ∃ added,
    w_sent (views.AdminOrderStatusUpdateView_patch order_id status w).1
      = w_sent w ++ added
    ∧ ∀ group event, (group, event) ∈ added →
        ∃ order,
          views.Order_objects_get order_id (w_db w) = Some order
          ∧ (group = consumers.user_group (Order.user order)
             ∨ group = consumers.admin_group)
          ∧ ∀ other, other ≠ Order.user order →
              group ≠ consumers.user_group other.
Proof.
  set (P := λ group : string,
    ∃ order,
      views.Order_objects_get order_id (w_db w) = Some order
      ∧ (group = consumers.user_group (Order.user order)
         ∨ group = consumers.admin_group)).
  assert (Hsends : ∃ added,
    w_sent (views.AdminOrderStatusUpdateView_patch order_id status w).1
      = w_sent w ++ added ∧ ∀ sent, sent ∈ added → P sent.1).
  { unfold views.AdminOrderStatusUpdateView_patch.
    rewrite (bind_run _ _ w w (w_db w)) by reflexivity.
    destruct (views.Order_objects_get order_id (w_db w)) as [order|] eqn:Hget;
      [|by apply sends_ret].
    assert (Howner : P (consumers.user_group (Order.user order))).
    { exists order. split; [done|by left]. }
    assert (Hadmin : P consumers.admin_group).
    { exists order. split; [done|by right]. }
    destruct (serializers.UpdateOrderStatus_is_valid status order)
      as [errors|new_status]; [by apply sends_ret|].
    apply (sends_bind_with P (λ saved, Order.user saved = Order.user order)).
    - unfold models.Order_update_status,
        consumers.OrderConsumer_send_order_update.
      repeat sends_step.
    - intros w0 saved Hsaved.
      by rewrite (Order_update_status_result _ _ _ _ Hsaved).
    - intros saved Hsaved.
      unfold views.notify_status_change, views.order_response,
        consumers.OrderConsumer_send_order_update,
        consumers.AdminOrderConsumer_notify_order_status_change.
      rewrite Hsaved. repeat sends_step. }
  destruct Hsends as (added & Hsent & Hadded). exists added. split; [done|].
  intros group event Hin. destruct (Hadded _ Hin) as (order & Hget & Hgroup).
  exists order. split_and!; [done..|]. by apply owner_or_admin_group.
Qed.

(** X16.  Whatever the fate of its tasks, placing an order sends
    messages only to the group of the user who places it and to the group
    of the administrators: to the group of no other user. *)
Theorem order_creation_notifies_owner_and_admins_only
    (user : User.t) (data : option string) (w : World) :
  ∃ added,
    w_sent (views.CreateOrderView_post user data w).1 = w_sent w ++ added
    ∧ ∀ group event, (group, event) ∈ added →
        (group = consumers.user_group (User.id user)
         ∨ group = consumers.admin_group)
        ∧ ∀ other, other ≠ User.id user →
            group ≠ consumers.user_group other.
Proof.
  set (P := λ group : string,
    group = consumers.user_group (User.id user)
    ∨ group = consumers.admin_group).
  assert (Hsends : sends_only_to P (views.CreateOrderView_post user data)).
  { unfold views.CreateOrderView_post, views.CreateOrderView_checks,
      views.CreateOrderView_place, views.notify_order_created,
      views.create_order_item, views.order_response,
      models.Cart_total_price, models.CartItem_total_price,
      models.CartItem_product,
      consumers.OrderConsumer_send_order_created,
      consumers.AdminOrderConsumer_notify_new_order.
    repeat first [ apply sends_validate_stock | sends_step
                 | by (left; reflexivity) | by (right; reflexivity) ]. }
  destruct (Hsends w) as (added & Hsent & Hadded). exists added.
  split; [done|]. intros group event Hin.
  split; [exact (Hadded _ Hin)|].
  apply owner_or_admin_group. exact (Hadded _ Hin).
Qed.

(** ** The stock filters of the product list *)

(** X17.  On products whose stock is not negative, the filters
    [in_stock=true] and [out_of_stock=true] split the products between
    them: asked for together they leave nothing, each product passes one
    of them, and a filter asked with [false] leaves the products as they
    are. *)
Theorem stock_filters_split_products
    (queryset : list Product.t)
    (Hstock : ∀ p, p ∈ queryset → 0 ≤ Product.stock p) :
  filters.filter_out_of_stock (filters.filter_in_stock queryset true) true = []
  ∧ filters.filter_in_stock (filters.filter_out_of_stock queryset true) true = []
  ∧ filters.filter_in_stock queryset true
      ++ filters.filter_out_of_stock queryset true ≡ₚ queryset
  ∧ filters.filter_in_stock (filters.filter_out_of_stock queryset false) false
    = queryset.
Proof.
  unfold filters.filter_in_stock, filters.filter_out_of_stock.
  split_and!; [| | |done].
  - apply filter_none. intros p [Hp _]%list_elem_of_filter. lia.
  - apply filter_none. intros p [Hp _]%list_elem_of_filter. lia.
  - induction queryset as [|p queryset IH]; [done|].
    assert (IH' : filter (λ p, Product.stock p > 0) queryset
                  ++ filter (λ p, Product.stock p = 0) queryset ≡ₚ queryset).
    { apply IH. intros q Hq. apply Hstock. by right. }
    assert (Hp : 0 ≤ Product.stock p) by (apply Hstock; left).
    destruct (decide (Product.stock p > 0)) as [Hpos|Hzero].
    + rewrite filter_cons_True by done.
      rewrite (filter_cons_False (λ p, Product.stock p = 0)) by lia.
      simpl. by f_equiv.
    + rewrite filter_cons_False by done.
      rewrite (filter_cons_True (λ p, Product.stock p = 0)) by lia.
      rewrite <- Permutation_middle. by f_equiv.
Qed.

Lemma stock_filters_split_products_witness :
  filters.filter_in_stock [sample.product_a; sample.product_b] true
    ++ filters.filter_out_of_stock [sample.product_a; sample.product_b] true
  ≡ₚ [sample.product_a; sample.product_b].
Proof.
  refine (proj1 (proj2 (proj2
    (stock_filters_split_products [sample.product_a; sample.product_b] _)))).
  intros p Hp.
  apply elem_of_cons in Hp as [->|Hp]; [vm_compute; discriminate|].
  apply elem_of_cons in Hp as [->|Hp]; [vm_compute; discriminate|].
  by apply elem_of_nil in Hp.
Defined.
